(** * pr_genius: the diff aligner, the batch pager, the URL parser and the
    fallbacks around the upstream calls, embedded from the TypeScript sources.

    Conventions of the embedding.
    - A JavaScript string is a [string]; one [ascii] stands for one code unit.
    - An array is a [list]; [l !! k] is the read [l[k]], with [None] for
      [undefined].
    - In the diff aligner a computation has type [option _]: [None] means that
      an index fell outside an array or that a loop did not finish within its
      bound.  The theorems show that this never happens.
    - Code that can throw, or whose promise can reject, returns a
      [completion]: [Normal v] or [Throw e]. *)

From Stdlib Require Import ZArith Ascii.
From stdpp Require Import base option list strings.

Local Open Scope string_scope.
Local Open Scope list_scope.
Local Open Scope nat_scope.

(** ** Shared JavaScript notions *)

Module Js.

(** A thrown [Error]; only its [message] is ever read. *)
Record Error := { message : string }.

Inductive completion (A : Type) : Type :=
| Normal (a : A)
| Throw (e : Error).
Global Arguments Normal {A} a.
Global Arguments Throw {A} e.

Definition bind {A B} (c : completion A) (k : A → completion B) : completion B :=
  match c with
  | Normal a => k a
  | Throw e => Throw e
  end.

(** [try { body } catch (error) { handler }] *)
Definition try_catch {A} (body : completion A) (handler : Error → completion A)
  : completion A :=
  match body with
  | Normal a => Normal a
  | Throw e => handler e
  end.

Global Instance completion_ret : MRet completion := @Normal.
Global Instance completion_bind : MBind completion := λ A B k c, bind c k.

(** [lines.join(sep)] *)
Fixpoint join (sep : string) (parts : list string) : string :=
  match parts with
  | [] => ""
  | [p] => p
  | p :: rest => p +:+ sep +:+ join sep rest
  end.

(** [s.split(sep)] for a separator of one code unit: the pieces between the
    occurrences of [sep]; a string without [sep] (the empty one too) gives
    one piece. *)
Fixpoint split (sep : ascii) (s : string) : list string :=
  match s with
  | EmptyString => [""]
  | String c rest =>
      if bool_decide (c = sep) then "" :: split sep rest
      else match split sep rest with
           | piece :: pieces => String c piece :: pieces
           | [] => [String c ""]
           end
  end.

(** [s.toLowerCase()] on code units below 256: the letters A-Z and the
    upper-case letters of Latin-1 move down by 32. *)
Definition lowerChar (c : ascii) : ascii :=
  let n := N_of_ascii c in
  if ((65 <=? n) && (n <=? 90)
      || (192 <=? n) && (n <=? 222) && negb (n =? 215))%N
  then ascii_of_N (n + 32)
  else c.

Fixpoint toLowerCase (s : string) : string :=
  match s with
  | EmptyString => ""
  | String c rest => String (lowerChar c) (toLowerCase rest)
  end.

(** [s.includes(c)] for a text [c] of one code unit. *)
Fixpoint includesChar (c : ascii) (s : string) : bool :=
  match s with
  | EmptyString => false
  | String c' rest => bool_decide (c' = c) || includesChar c rest
  end.


(** A value of type [any] that came out of [JSON.parse] or
    [response.json()], with [undefined] for what is absent. *)
#[local] Unset Elimination Schemes.
Inductive JsVal :=
| JUndefined
| JNull
| JBool (b : bool)
| JNum (n : Z)
| JStr (s : string)
| JArr (items : list JsVal)
| JObj (fields : list (string * JsVal)).
#[local] Set Elimination Schemes.

Definition TypeError : Error := {| message := "TypeError" |}.

Fixpoint lookupField (key : string) (fields : list (string * JsVal)) : JsVal :=
  match fields with
  | [] => JUndefined
  | (k, v) :: rest => if bool_decide (k = key) then v else lookupField key rest
  end.

(** [v.key]: a [TypeError] on [undefined] and [null], the field of an object,
    [undefined] on the other values (none of the keys read by the code is a
    built-in property of a string, number, boolean or array). *)
Definition get (v : JsVal) (key : string) : completion JsVal :=
  match v with
  | JUndefined | JNull => Throw TypeError
  | JObj fields => Normal (lookupField key fields)
  | _ => Normal JUndefined
  end.

(** [v?.key] *)
Definition optGet (v : JsVal) (key : string) : JsVal :=
  match v with
  | JObj fields => lookupField key fields
  | _ => JUndefined
  end.

(** [v[0]] *)
Definition first (v : JsVal) : completion JsVal :=
  match v with
  | JUndefined | JNull => Throw TypeError
  | JArr items => Normal (default JUndefined (items !! 0))
  | JStr s => Normal (match s with
                      | String c _ => JStr (String c "")
                      | EmptyString => JUndefined
                      end)
  | JObj fields => Normal (lookupField "0" fields)
  | _ => Normal JUndefined
  end.

(** Truthiness: [undefined], [null], [false], [0] and [""] are falsy. *)
Definition truthy (v : JsVal) : bool :=
  match v with
  | JUndefined | JNull => false
  | JBool b => b
  | JNum n => negb (n =? 0)%Z
  | JStr s => negb (bool_decide (s = ""))
  | JArr _ | JObj _ => true
  end.

(** [a || b] on values *)
Definition orElse (a b : JsVal) : JsVal := if truthy a then a else b.

(** [v?.map(f)]: [undefined] on [undefined] and [null], the mapped array on
    an array, a [TypeError] on any other value, which has no [map]. *)
Fixpoint mapAll {A B} (f : A → completion B) (items : list A)
  : completion (list B) :=
  match items with
  | [] => Normal []
  | x :: rest => y ← f x; ys ← mapAll f rest; Normal (y :: ys)
  end.

Definition optMap {B} (v : JsVal) (f : JsVal → completion B)
  : completion (option (list B)) :=
  match v with
  | JUndefined | JNull => Normal None
  | JArr items => ys ← mapAll f items; Normal (Some ys)
  | _ => Throw TypeError
  end.

End Js.

(** ** The side-by-side diff (components/PRReviewAnalysis) *)

Module Diff.

Inductive DiffLineType := same | added | removed | empty.

Global Instance DiffLineType_eq_dec : EqDecision DiffLineType.
Proof. solve_decision. Defined.

Record DiffLine := {
  text : string;
  lineNumber : option nat;   (* number | null *)
  type : DiffLineType
}.

Record SideBySide := { left : list DiffLine; right : list DiffLine }.

(** A value of type [unknown], as far as [normalizeContent] looks at it.
    [UOther shown] is any other value, [shown] being its [String(value)]. *)
Inductive unknown :=
| UString (s : string)
| UNullish
| UOther (shown : string).

Definition normalizeContent (value : unknown) : string :=
  match value with
  | UString s => s
  | UNullish => ""
  | UOther shown => shown
  end.

Definition CR : ascii := "013"%char.
Definition LF : ascii := "010"%char.

(** [text.split(/\r?\n/)]: a line ends at a line feed, and a carriage return
    directly before that line feed belongs to the separator.  A carriage
    return elsewhere stays in its line. *)
Fixpoint splitLines (s : string) : list string :=
  match s with
  | EmptyString => [""]
  | String c rest =>
      let keep := match splitLines rest with
                  | line :: lines => String c line :: lines
                  | [] => [String c ""]
                  end in
      if bool_decide (c = LF) then "" :: splitLines rest
      else if bool_decide (c = CR) then
        match rest with
        | String c' rest' =>
            if bool_decide (c' = LF) then "" :: splitLines rest' else keep
        | EmptyString => keep
        end
      else keep
  end.

(** [Array.from({ length: rows }, () => Array(cols).fill(0))] *)
Definition newTable (rows cols : nat) : list (list nat) :=
  replicate rows (replicate cols 0).

(** [lcsTable[i][j]] *)
Definition tget (lcsTable : list (list nat)) (i j : nat) : option nat :=
  row ← lcsTable !! i; row !! j.

(** [lcsTable[i][j] = v], inside the table only. *)
Definition tset (lcsTable : list (list nat)) (i j v : nat)
  : option (list (list nat)) :=
  row ← lcsTable !! i;
  if decide (j < length row) then Some (<[i := <[j := v]> row]> lcsTable)
  else None.

(** [for (let k = first; ...; k += 1) body], [count] iterations. *)
Fixpoint for_loop {St : Type} (count first : nat)
    (body : nat → St → option St) (s : St) : option St :=
  match count with
  | 0 => Some s
  | S count' => s' ← body first s; for_loop count' (S first) body s'
  end.

(** The body of the inner loop of the table construction. *)
Definition fillCell (sourceLines targetLines : list string) (i j : nat)
    (lcsTable : list (list nat)) : option (list (list nat)) :=
  a ← sourceLines !! (i - 1);
  b ← targetLines !! (j - 1);
  if bool_decide (a = b) then
    d ← tget lcsTable (i - 1) (j - 1);
    tset lcsTable i j (d + 1)
  else
    up ← tget lcsTable (i - 1) j;
    lft ← tget lcsTable i (j - 1);
    tset lcsTable i j (up `max` lft).

Definition buildTable (sourceLines targetLines : list string)
  : option (list (list nat)) :=
  let sourceLength := length sourceLines in
  let targetLength := length targetLines in
  for_loop sourceLength 1
    (λ i, for_loop targetLength 1 (fillCell sourceLines targetLines i))
    (newTable (sourceLength + 1) (targetLength + 1)).

(** The loop [while (i > 0 || j > 0)], with [left.push] and [right.push]
    written as appends at the end.  Every turn lowers [i + j], and [fuel]
    bounds the number of turns. *)
Fixpoint backtrack (fuel : nat) (sourceLines targetLines : list string)
    (lcsTable : list (list nat)) (i j : nat) (left right : list DiffLine)
  : option (list DiffLine * list DiffLine) :=
  if bool_decide (0 < i) || bool_decide (0 < j) then
    match fuel with
    | 0 => None
    | S fuel' =>
        equal ← (if bool_decide (0 < i) && bool_decide (0 < j) then
                   a ← sourceLines !! (i - 1);
                   b ← targetLines !! (j - 1);
                   Some (bool_decide (a = b))
                 else Some false);
        if equal : bool then
          a ← sourceLines !! (i - 1);
          b ← targetLines !! (j - 1);
          backtrack fuel' sourceLines targetLines lcsTable (i - 1) (j - 1)
            (left ++ [{| text := a; lineNumber := Some i; type := same |}])
            (right ++ [{| text := b; lineNumber := Some j; type := same |}])
        else
          add ← (if bool_decide (0 < j) then
                   if bool_decide (i = 0) then Some true
                   else
                     l ← tget lcsTable i (j - 1);
                     u ← tget lcsTable (i - 1) j;
                     Some (bool_decide (u ≤ l))
                 else Some false);
          if add : bool then
            b ← targetLines !! (j - 1);
            backtrack fuel' sourceLines targetLines lcsTable i (j - 1)
              (left ++ [{| text := ""; lineNumber := None; type := empty |}])
              (right ++ [{| text := b; lineNumber := Some j; type := added |}])
          else
            a ← sourceLines !! (i - 1);
            backtrack fuel' sourceLines targetLines lcsTable (i - 1) j
              (left ++ [{| text := a; lineNumber := Some i; type := removed |}])
              (right ++ [{| text := ""; lineNumber := None; type := empty |}])
    end
  else Some (left, right).

Definition buildSideBySideDiff (source target : string) : option SideBySide :=
  let sourceText := normalizeContent (UString source) in
  let targetText := normalizeContent (UString target) in
  let sourceLines := splitLines sourceText in
  let targetLines := splitLines targetText in
  let sourceLength := length sourceLines in
  let targetLength := length targetLines in
  lcsTable ← buildTable sourceLines targetLines;
  '(left, right) ← backtrack (sourceLength + targetLength)
                     sourceLines targetLines lcsTable
                     sourceLength targetLength [] [];
  Some {| left := reverse left; right := reverse right |}.

(** The three branches of the loop body of [buildUnifiedDiffText], taken in
    the order of its two [if ... continue] tests. *)
Inductive Branch := plusLine | minusLine | contextLine.

Definition unifiedBranch (leftLine rightLine : DiffLine) : Branch :=
  if bool_decide (type rightLine = added) then plusLine
  else if bool_decide (type leftLine = removed) then minusLine
  else contextLine.

Definition unifiedLine (leftLine rightLine : DiffLine) : string :=
  match unifiedBranch leftLine rightLine with
  | plusLine => "+" +:+ text rightLine
  | minusLine => "-" +:+ text leftLine
  | contextLine => " " +:+ text leftLine
  end.

(** [for (let index = 0; index < diff.left.length; index += 1)]: one output
    line per entry of [left], reading [right] at the same index. *)
Fixpoint unifiedLines (left right : list DiffLine) (index count : nat)
  : option (list string) :=
  match count with
  | 0 => Some []
  | S count' =>
      leftLine ← left !! index;
      rightLine ← right !! index;
      rest ← unifiedLines left right (S index) count';
      Some (unifiedLine leftLine rightLine :: rest)
  end.

Definition buildUnifiedDiffText (baseText updatedText filePath : string)
  : option string :=
  diff ← buildSideBySideDiff baseText updatedText;
  body ← unifiedLines (left diff) (right diff) 0 (length (left diff));
  Some (Js.join (String LF "")
          (("--- a/" +:+ filePath) :: ("+++ b/" +:+ filePath) :: body)).

(** *** What the claims observe of a diff *)

(** The entries that survive when those of type [empty] are deleted. *)
Definition kept (side : list DiffLine) : list DiffLine :=
  filter (λ d, type d ≠ empty) side.

(** The rows (index positions) whose left and right entries both have type
    [same], in order. *)
Definition sameRows (left right : list DiffLine) : list (DiffLine * DiffLine) :=
  filter (λ row, type row.1 = same ∧ type row.2 = same) (zip left right).

(** The three pairs of types a row can have. *)
Definition rowTypes (l r : DiffLine) : Prop :=
  (type l = same ∧ type r = same) ∨
  (type l = empty ∧ type r = added) ∨
  (type l = removed ∧ type r = empty).

(** Length of a longest common subsequence of the first [i] source lines and
    the first [j] target lines, by the textbook recurrence.  It is compared
    with the table the code fills, and shown below to be the greatest length
    of a common subsequence. *)
Fixpoint lcsLength (sourceLines targetLines : list string) (i : nat)
  : nat → nat :=
  fix onTarget (j : nat) : nat :=
    match i, j with
    | S i', S j' =>
        match sourceLines !! i', targetLines !! j' with
        | Some a, Some b =>
            if bool_decide (a = b)
            then lcsLength sourceLines targetLines i' j' + 1
            else lcsLength sourceLines targetLines i' (S j') `max` onTarget j'
        | _, _ => 0
        end
    | _, _ => 0
    end.

(** The pair of types that each branch of [buildUnifiedDiffText] stands
    for. *)
Definition branchTypes (l r : DiffLine) : Prop :=
  match unifiedBranch l r with
  | plusLine => type l = empty ∧ type r = added
  | minusLine => type l = removed ∧ type r = empty
  | contextLine => type l = same ∧ type r = same
  end.

(** *** Loop invariants *)

(** The cells of the table that are final when the loops stand at row [i],
    column [j]: the zero row and column, the rows before [i], and row [i]
    up to column [j]. *)
Definition known (i j a b : nat) : Prop :=
  a = 0 ∨ b = 0 ∨ a < i ∨ (a = i ∧ b < j).

Record tableInv (src tgt : list string) (T : list (list nat)) (i j : nat)
  : Prop := {
  inv_rows : length T = length src + 1;
  inv_cols : ∀ a row, T !! a = Some row → length row = length tgt + 1;
  inv_vals : ∀ a b, a ≤ length src → b ≤ length tgt → known i j a b →
             tget T a b = Some (lcsLength src tgt a b)
}.

(** [L] and [R] are the rows of a diff of the first [i] source lines against
    the first [j] target lines. *)
Record aligned (src tgt : list string) (i j : nat) (L R : list DiffLine)
  : Prop := {
  al_rows : Forall2 rowTypes L R;
  al_left_text : text <$> kept L = take i src;
  al_left_num : lineNumber <$> kept L = Some <$> seq 1 i;
  al_right_text : text <$> kept R = take j tgt;
  al_right_num : lineNumber <$> kept R = Some <$> seq 1 j;
  al_same_left : (text ∘ fst) <$> sameRows L R `sublist_of` take i src;
  al_same_right : (text ∘ snd) <$> sameRows L R `sublist_of` take j tgt;
  al_same_eq : (text ∘ fst) <$> sameRows L R = (text ∘ snd) <$> sameRows L R;
  al_same_len : length (sameRows L R) = lcsLength src tgt i j
}.

End Diff.

(** ** Parsing the link of a pull request *)

Module Url.
Import Js.

(** What the code reads of a [URL] object. *)
Record URL := { pathname : string; hostname : string }.

(** The fields are array reads, so each is a string or, outside the array,
    [undefined] ([None]). *)
Record AzureDevOpsParams := {
  organization : option string;
  project : option string;
  repository : option string;
  pullRequestId : option string
}.

(** [prUrl.pathname.split("/").filter((p) => p !== "")] *)
Definition pathPartsOf (prUrl : URL) : list string :=
  filter (λ p, p ≠ "") (split "/" (pathname prUrl)).

(** A stand-in for the platform's [new URL(url)], used in the examples only:
    it reads [https://host/path] and throws on anything else. *)
Fixpoint untilSlash (s : string) : string * string :=
  match s with
  | EmptyString => ("", "/")
  | String c rest =>
      if bool_decide (c = "/"%char) then ("", s)
      else let '(host, path) := untilSlash rest in (String c host, path)
  end.

Definition httpsURL (url : string) : completion URL :=
  if String.prefix "https://" url then
    let '(host, path) := untilSlash (String.substring 8 (String.length url - 8) url) in
    Normal {| pathname := path; hostname := host |}
  else Throw {| message := "Invalid URL" |}.

(** *** What the claims say of a parser of pull-request links *)

(** The dev.azure.com shape of a path. *)
Definition devAzureShape (pathParts : list string) : Prop :=
  6 ≤ length pathParts ∧
  pathParts !! 2 = Some "_git" ∧
  pathParts !! 4 = Some "pullrequest".

(** The organization.visualstudio.com shape of a URL. *)
Definition visualStudioShape (prUrl : URL) : Prop :=
  split "." (hostname prUrl) !! 1 = Some "visualstudio" ∧
  pathPartsOf prUrl !! 1 = Some "_git".

Definition parsesPullRequestLinks (newURL : string → completion URL)
    (parse : string → completion (option AzureDevOpsParams)) : Prop :=
  (∀ url prUrl org project repo id rest,
     newURL url = Normal prUrl →
     pathPartsOf prUrl
       = org :: project :: "_git" :: repo :: "pullrequest" :: id :: rest →
     parse url = Normal (Some {| organization := Some org;
                                 project := Some project;
                                 repository := Some repo;
                                 pullRequestId := Some id |})) ∧
  (∀ url e, newURL url = Throw e → parse url = Normal None) ∧
  (∀ url prUrl,
     newURL url = Normal prUrl →
     ¬ devAzureShape (pathPartsOf prUrl) → ¬ visualStudioShape prUrl →
     parse url = Normal None) ∧
  (∀ url, ∃ result, parse url = Normal result).

End Url.

(** ** types.ts *)

Module Types.
Import Js.

Record PRInfo := {
  title : string;
  description : string;
  createdBy : string;
  sourceBranch : string;
  targetBranch : string;
  status : string
}.

(** [path], [changeType] and [originalPath] are copied from a change entry of
    type [any], so they are kept as values. *)
Record FileDiff := {
  path : JsVal;
  changeType : JsVal;
  content : string;
  originalPath : JsVal
}.

Record BossStats := {
  complexityScore : Z;
  riskLevel : string;        (* "Low" | "Medium" | "High" | "Critical" *)
  estimatedReviewMinutes : Z;
  blastRadius : string;      (* "Isolated" | "Module-wide" | "System-wide" *)
  testPresence : string;     (* "Missing" | "Partial" | "Comprehensive" *)
  breakingChange : bool
}.

Record CodeReviewComment := {
  file : string;
  line : option Z;
  comment : string;
  suggestedChange : option string;
  severity : string;         (* "low" | "medium" | "high" *)
  type : string              (* "logic" | "security" | "style" | ... *)
}.

Record PRAnalysis := {
  summary : string;
  overallHealth : string;    (* "Excellent" | "Good" | ... | "Critical" *)
  architecturalImpact : string;
  contextAlignment : option string;
  keyPoints : list string;
  securityConcerns : list string;
  performanceTips : list string;
  stats : BossStats;
  codeReviewComments : list CodeReviewComment
}.

Inductive AIProvider := gemini | glm.

Record AppState := {
  isAnalyzing : bool;
  error : option string;
  prInfo : option PRInfo;
  analysis : option PRAnalysis;
  allChanges : list JsVal;
  processedCount : nat;
  commitId : option string;
  params : option Url.AzureDevOpsParams;
  systemInstructions : string;
  systemContext : string;
  aiProvider : AIProvider
}.

End Types.

(** *** services/prCreationService.ts *)

Module PrCreationService.
Import Js Url.

Section Parser.
(** [new URL(url)] of the platform: a URL object, or a thrown [TypeError]. *)
Variable newURL : string → completion URL.

Definition parsePRUrl (url : string) : completion (option AzureDevOpsParams) :=
  try_catch
    (prUrl ← newURL url;
     let pathParts := filter (λ p, p ≠ "") (split "/" (pathname prUrl)) in
     if bool_decide (6 ≤ length pathParts)
        && bool_decide (pathParts !! 2 = Some "_git")
        && bool_decide (pathParts !! 4 = Some "pullrequest")
     then
       Normal (Some {| organization := pathParts !! 0;
                       project := pathParts !! 1;
                       repository := pathParts !! 3;
                       pullRequestId := pathParts !! 5 |})
     else
       let hostParts := split "." (hostname prUrl) in
       if bool_decide (hostParts !! 1 = Some "visualstudio")
          && bool_decide (pathParts !! 1 = Some "_git")
       then
         Normal (Some {| organization := hostParts !! 0;
                         project := pathParts !! 0;
                         repository := pathParts !! 2;
                         pullRequestId := pathParts !! 4 |})
       else Normal None)
    (λ _, Normal None).

End Parser.
End PrCreationService.

(** *** services/azureDevOpsService.ts *)

Module AzureDevOpsService.
Import Js Url.

Section Parser.
Variable newURL : string → completion URL.

Definition parsePRUrl (url : string) : completion (option AzureDevOpsParams) :=
  try_catch
    (prUrl ← newURL url;
     let pathParts := filter (λ p, p ≠ "") (split "/" (pathname prUrl)) in
     if bool_decide (6 ≤ length pathParts)
        && bool_decide (pathParts !! 2 = Some "_git")
        && bool_decide (pathParts !! 4 = Some "pullrequest")
     then
       Normal (Some {| organization := pathParts !! 0;
                       project := pathParts !! 1;
                       repository := pathParts !! 3;
                       pullRequestId := pathParts !! 5 |})
     else
       let hostParts := split "." (hostname prUrl) in
       if bool_decide (hostParts !! 1 = Some "visualstudio")
          && bool_decide (pathParts !! 1 = Some "_git")
       then
         Normal (Some {| organization := hostParts !! 0;
                         project := pathParts !! 0;
                         repository := pathParts !! 2;
                         pullRequestId := pathParts !! 4 |})
       else Normal None)
    (λ _, Normal None).

End Parser.

(** What the code reads of the [Response] of [fetch]: [res.ok] and the
    outcome of [await res.text()]. *)
Record Response := { ok : bool; text : completion string }.

Definition BINARY_MARKER : string := "[Binary File - Skipping analysis]".
Definition ERROR_MARKER : string := "[Error fetching content]".
Definition TRUNCATED_SUFFIX : string := String "010" "... [TRUNCATED]".
Definition NUL : ascii := "000"%char.
(** The bound 20000 of the source. *)
Definition MAX_CONTENT : nat := 20 * 1000.

Definition skipTypes : list string := ["delete"; "none"].

Definition isString (v : JsVal) : bool :=
  match v with JStr _ => true | _ => false end.

(** [change.item?.path || change.path ||
     (change.item && typeof change.item === "string" ? change.item : null)] *)
Definition changePath (change : JsVal) : completion JsVal :=
  item ← get change "item";
  path ← get change "path";
  Normal (orElse (orElse (optGet item "path") path)
            (if truthy item && isString item then item else JNull)).

(** [changeType.toLowerCase()]: only a string has that method. *)
Definition lowerCased (v : JsVal) : completion string :=
  match v with
  | JStr s => Normal (toLowerCase s)
  | _ => Throw TypeError
  end.

Section Fetch.
(** The request of one file inside the [try] block of [fetchBatchContents]:
    the URL built with [encodeURIComponent], the header built with [btoa] and
    the [fetch] itself, any of which may throw.  It is given the data the
    request is built from. *)
Variable requestItem :
  AzureDevOpsParams → string → JsVal → option string → completion Response.

(** The [try]/[catch] that fills [content]. *)
Definition fetchContent (params : AzureDevOpsParams) (pat : string)
    (path : JsVal) (commitId : option string) : completion string :=
  try_catch
    (res ← requestItem params pat path commitId;
     if ok res then
       fetched ← text res;
       if includesChar NUL fetched then Normal BINARY_MARKER
       else if bool_decide (MAX_CONTENT < String.length fetched) then
         Normal (String.substring 0 MAX_CONTENT fetched +:+ TRUNCATED_SUFFIX)
       else Normal fetched
     else Normal "")
    (λ err, Normal ERROR_MARKER).

(** The callback of [changes.map]: [None] is its [null]. *)
Definition fetchChange (params : AzureDevOpsParams) (pat : string)
    (commitId : option string) (change : JsVal)
  : completion (option Types.FileDiff) :=
  path ← changePath change;
  if negb (truthy path) then Normal None
  else
    rawType ← get change "changeType";
    let changeType := orElse rawType (JStr "edit") in
    lowered ← lowerCased changeType;
    content ← (if negb (bool_decide (lowered ∈ skipTypes))
               then fetchContent params pat path commitId
               else Normal "");
    sourceServerItem ← get change "sourceServerItem";
    originalPath ← get change "originalPath";
    Normal (Some {| Types.path := path;
                    Types.changeType := changeType;
                    Types.content := content;
                    Types.originalPath := orElse sourceServerItem originalPath |}).

(** [res.filter((f) => f !== null)] *)
Definition nonNull {A} (res : list (option A)) : list A := omap id res.

(** [Promise.all(changes.map(...)).then((res) => res.filter(...))] *)
Definition fetchBatchContents (params : AzureDevOpsParams) (pat : string)
    (changes : list JsVal) (commitId : option string)
  : completion (list Types.FileDiff) :=
  res ← mapAll (fetchChange params pat commitId) changes;
  Normal (nonNull res).

End Fetch.

(** *** What the claims say of a fetched content *)

(** The four kinds of [content]: empty, one of the two markers, or a fetched
    text without NUL, whole when it has at most 20000 code units and cut to
    its first 20000 followed by the suffix otherwise. *)
Definition admissibleContent (content : string) : Prop :=
  content = "" ∨
  content = BINARY_MARKER ∨
  content = ERROR_MARKER ∨
  ∃ fetched,
    includesChar NUL fetched = false ∧
    ((String.length fetched ≤ MAX_CONTENT ∧ content = fetched) ∨
     (MAX_CONTENT < String.length fetched ∧
      content = String.substring 0 MAX_CONTENT fetched +:+ TRUNCATED_SUFFIX)).

(** The changes of a batch that yield a file: those with a truthy path. *)
Definition hasPath (change : JsVal) : bool :=
  match changePath change with
  | Normal path => truthy path
  | Throw _ => false
  end.

(** A change entry as the service sends it: an object whose [changeType], if
    it has one, is a string. *)
Definition plainChange (change : JsVal) : Prop :=
  ∃ fields,
    change = JObj fields ∧
    (truthy (lookupField "changeType" fields) = false ∨
     isString (lookupField "changeType" fields) = true).

(** [file] is the file fetched for [change]. *)
Definition fileOf (change : JsVal) (file : Types.FileDiff) : Prop :=
  changePath change = Normal (Types.path file).

(** The change type of [file] is "delete" or "none", in any case of the
    letters. *)
Definition skipsFetch (file : Types.FileDiff) : Prop :=
  ∃ lowered,
    lowerCased (Types.changeType file) = Normal lowered ∧
    lowered ∈ skipTypes.

(** What the claims say of the content of [file], given the outcome
    [response] of the request made for it: empty for the two change types
    and for a response that is not ok; the binary marker when the fetched
    text has a NUL; the error marker when the request, or the reading of its
    text, throws; and otherwise the fetched text, whole when it has at most
    20000 code units and cut to its first 20000 followed by the suffix when
    it has more. *)
Definition contentAsFetched (response : completion Response)
    (file : Types.FileDiff) : Prop :=
  (Types.content file = "" ∧
   (skipsFetch file ∨ ∃ res, response = Normal res ∧ ok res = false)) ∨
  (Types.content file = BINARY_MARKER ∧ ¬ skipsFetch file ∧
   ∃ res fetched,
     response = Normal res ∧ ok res = true ∧ text res = Normal fetched ∧
     includesChar NUL fetched = true) ∨
  (Types.content file = ERROR_MARKER ∧ ¬ skipsFetch file ∧
   ((∃ e, response = Throw e) ∨
    ∃ res e, response = Normal res ∧ ok res = true ∧ text res = Throw e)) ∨
  (¬ skipsFetch file ∧
   ∃ res fetched,
     response = Normal res ∧ ok res = true ∧ text res = Normal fetched ∧
     includesChar NUL fetched = false ∧
     ((String.length fetched ≤ MAX_CONTENT ∧ Types.content file = fetched) ∨
      (MAX_CONTENT < String.length fetched ∧
       Types.content file
       = String.substring 0 MAX_CONTENT fetched +:+ TRUNCATED_SUFFIX))).

(** [file] is what the batch returns for [change]: it has the path and the
    change type of [change] (the type "edit" when [change] has none), and
    its content follows the request made for that path. *)
Definition fetchedFile
    (requestItem : AzureDevOpsParams → string → JsVal → option string
                   → completion Response)
    (params : AzureDevOpsParams) (pat : string) (commitId : option string)
    (change : JsVal) (file : Types.FileDiff) : Prop :=
  changePath change = Normal (Types.path file) ∧
  truthy (Types.path file) = true ∧
  (∃ rawType,
     get change "changeType" = Normal rawType ∧
     Types.changeType file = orElse rawType (JStr "edit")) ∧
  contentAsFetched (requestItem params pat (Types.path file) commitId) file.

End AzureDevOpsService.

(** *** services/glmService.ts *)

Module GlmService.
Import Js Types.

(** [content.match(/\{[\s\S]*\}/)]: from the first opening brace to the last
    closing brace after it. *)
Fixpoint fromFirst (c : ascii) (s : string) : option string :=
  match s with
  | EmptyString => None
  | String c' rest => if bool_decide (c' = c) then Some s else fromFirst c rest
  end.

Fixpoint uptoLast (c : ascii) (s : string) : option string :=
  match s with
  | EmptyString => None
  | String c' rest =>
      match uptoLast c rest with
      | Some p => Some (String c' p)
      | None => if bool_decide (c' = c) then Some (String c' "") else None
      end
  end.

Definition matchBraces (s : string) : option string :=
  match fromFirst "{" s with
  | Some (String open rest) =>
      match uptoLast "}" rest with
      | Some p => Some (String open p)
      | None => None
      end
  | _ => None
  end.

(** [content.match(...)]: only a string has that method. *)
Definition contentMatch (content : JsVal) : completion (option string) :=
  match content with
  | JStr s => Normal (matchBraces s)
  | _ => Throw TypeError
  end.

(** [error.message || "Unknown error"] *)
Definition messageOr (error : Error) (fallback : string) : string :=
  if bool_decide (message error = "") then fallback else message error.

(** The object returned by the [catch] block. *)
Definition failedAnalysis (error : Error) : PRAnalysis :=
  {| summary := "Analysis failed - please try again";
     overallHealth := "Critical";
     architecturalImpact := "Unable to analyze";
     contextAlignment := Some "Analysis incomplete";
     keyPoints := ["Analysis failed"];
     securityConcerns := ["Unable to complete security analysis"];
     performanceTips := ["Unable to analyze performance"];
     stats := {| complexityScore := 1;
                 riskLevel := "Critical";
                 estimatedReviewMinutes := 0;
                 blastRadius := "Isolated";
                 testPresence := "Missing";
                 breakingChange := false |};
     codeReviewComments :=
       [{| file := "analysis";
           line := Some 1%Z;
           comment := "Analysis failed: " +:+ messageOr error "Unknown error";
           suggestedChange := None;
           severity := "high";
           type := "logic" |}] |}.

Section Analyze.
(** [process.env.GLM_API_KEY] *)
Variable apiKey : JsVal.
(** The upstream call [client.chat.completions.create(...)], given what its
    prompt is built from: resolved with the reply, or rejected.  The client
    and the prompt are built before the [try] block, from typed values, and
    do not throw. *)
Variable create :
  PRInfo → list FileDiff → string → string → completion JsVal.
(** [JSON.parse] *)
Variable JSON_parse : JsVal → completion JsVal.
(** The rest of the [try] block, from [if (parsed.summary && parsed.stats)]
    on: it turns the parsed reply into the analysis that is returned, and
    may throw. *)
Variable normalize : JsVal → completion PRAnalysis.

(** The nested [try]/[catch] that sets [parsed]. *)
Definition parseContent (content : JsVal) : completion JsVal :=
  try_catch (JSON_parse content)
    (λ firstParseError,
       try_catch
         (jsonMatch ← contentMatch content;
          match jsonMatch with
          | Some found => JSON_parse (JStr found)
          | None =>
              Throw {| message := "Could not extract valid JSON from response" |}
          end)
         (λ secondParseError,
            Throw {| message := "Failed to parse GLM response as JSON" |})).

(** [response.choices[0]?.message?.content] *)
Definition replyContent (response : JsVal) : completion JsVal :=
  choices ← get response "choices";
  choice ← first choices;
  Normal (optGet (optGet choice "message") "content").

Definition analyzeBatch (prInfo : PRInfo) (changes : list FileDiff)
    (batchIndex totalBatches : nat) (customInstructions systemContext : string)
  : completion PRAnalysis :=
  if negb (truthy apiKey) then Throw {| message := "GLM API Key is missing." |}
  else
    try_catch
      (response ← create prInfo changes customInstructions systemContext;
       content ← replyContent response;
       if negb (truthy content) then
         Throw {| message := "Empty response from GLM" |}
       else
         parsed ← parseContent content;
         normalize parsed)
      (λ error, Normal (failedAnalysis error)).

End Analyze.
End GlmService.

(** *** App.tsx *)

Module App.
Import Js Url Types.

(** One call of the analysis function, with its arguments. *)
Record AiCall := {
  callProvider : AIProvider;
  callPrInfo : PRInfo;
  callFiles : list FileDiff;
  batchIndex : nat;
  totalBatches : nat;
  callInstructions : string;
  callContext : string
}.

(** An asynchronous step: the analysis calls it made, and how it ended. *)
Record Async (A : Type) := { trace : list AiCall; outcome : completion A }.
Global Arguments trace {A} _.
Global Arguments outcome {A} _.

Definition ret {A} (a : A) : Async A := {| trace := []; outcome := Normal a |}.
Definition throw {A} (e : Error) : Async A :=
  {| trace := []; outcome := Throw e |}.
Definition await {A} (c : completion A) : Async A :=
  {| trace := []; outcome := c |}.
Definition andThen {A B} (m : Async A) (k : A → Async B) : Async B :=
  match outcome m with
  | Normal a =>
      {| trace := trace m ++ trace (k a); outcome := outcome (k a) |}
  | Throw e => {| trace := trace m; outcome := Throw e |}
  end.
Definition tryCatch {A} (body : Async A) (handler : Error → Async A)
  : Async A :=
  match outcome body with
  | Normal a => body
  | Throw e =>
      {| trace := trace body ++ trace (handler e);
         outcome := outcome (handler e) |}
  end.

Global Instance Async_ret : MRet Async := @ret.
Global Instance Async_bind : MBind Async := λ A B k m, andThen m k.

(** [Math.ceil(n / d)] for a count [n]. *)
Definition ceilDiv (n d : nat) : nat := (n + (d - 1)) / d.

(** [!s] on a string. *)
Definition emptyStr (s : string) : bool := bool_decide (s = "").

(** The object built inside [setState] at the end of [loadNextBatch]. *)
Definition merged (prev : option PRAnalysis) (batchAnalysis : PRAnalysis)
  : PRAnalysis :=
  let mergedStats := stats batchAnalysis in
  {| summary := summary batchAnalysis;
     overallHealth := overallHealth batchAnalysis;
     architecturalImpact := architecturalImpact batchAnalysis;
     contextAlignment := contextAlignment batchAnalysis;
     stats := mergedStats;
     keyPoints :=
       from_option keyPoints [] prev ++ keyPoints batchAnalysis;
     securityConcerns :=
       from_option securityConcerns [] prev ++ securityConcerns batchAnalysis;
     performanceTips :=
       from_option performanceTips [] prev ++ performanceTips batchAnalysis;
     codeReviewComments :=
       from_option codeReviewComments [] prev
       ++ codeReviewComments batchAnalysis |}.

Section Component.
(** The platform and the services the component calls. *)
Variable newURL : string → completion URL.
Variable getPRDetails : AzureDevOpsParams → string → completion PRInfo.
Variable getPRMetadata :
  AzureDevOpsParams → string → completion (option string * list JsVal).
Variable requestItem :
  AzureDevOpsParams → string → JsVal → option string
  → completion AzureDevOpsService.Response.
Variable geminiAnalyzeBatch glmAnalyzeBatch :
  PRInfo → list FileDiff → nat → nat → string → string → completion PRAnalysis.

(** The other pieces of state the two handlers close over. *)
Variables (url pat : string) (aiProvider : AIProvider)
          (systemInstructions systemContext : string).

(** [await analyzeFunction(...)], recorded in the trace. *)
Definition analyzeFunction (prInfo : PRInfo) (fileContents : list FileDiff)
    (batchIndex totalBatches : nat) : Async PRAnalysis :=
  {| trace := [{| callProvider := aiProvider;
                  callPrInfo := prInfo;
                  callFiles := fileContents;
                  batchIndex := batchIndex;
                  totalBatches := totalBatches;
                  callInstructions := systemInstructions;
                  callContext := systemContext |}];
     outcome := (match aiProvider with
                 | glm => glmAnalyzeBatch
                 | gemini => geminiAnalyzeBatch
                 end) prInfo fileContents batchIndex totalBatches
                      systemInstructions systemContext |}.

(** [setState((prev) => ({ ...prev, error }))] *)
Definition withError (prev : AppState) (msg : string) : AppState :=
  {| isAnalyzing := isAnalyzing prev; error := Some msg;
     Types.prInfo := prInfo prev; analysis := analysis prev;
     allChanges := allChanges prev; processedCount := processedCount prev;
     Types.commitId := commitId prev; Types.params := params prev;
     Types.systemInstructions := Types.systemInstructions prev;
     Types.systemContext := Types.systemContext prev;
     Types.aiProvider := Types.aiProvider prev |}.

(** [setState((prev) => ({ ...prev, isAnalyzing }))] *)
Definition withAnalyzing (prev : AppState) (flag : bool) : AppState :=
  {| isAnalyzing := flag; error := error prev;
     Types.prInfo := prInfo prev; analysis := analysis prev;
     allChanges := allChanges prev; processedCount := processedCount prev;
     Types.commitId := commitId prev; Types.params := params prev;
     Types.systemInstructions := Types.systemInstructions prev;
     Types.systemContext := Types.systemContext prev;
     Types.aiProvider := Types.aiProvider prev |}.

Definition startAnalysis (state : AppState) : Async AppState :=
  if emptyStr url || emptyStr pat then
    ret (withError state "Pull Request URL and PAT are required.")
  else
    parsed ← await (AzureDevOpsService.parsePRUrl newURL url);
    match parsed with
    | None => ret (withError state "Invalid Azure DevOps PR URL format.")
    | Some params =>
        let started :=
          {| isAnalyzing := true; error := None; Types.prInfo := None;
             analysis := None; allChanges := []; processedCount := 0;
             Types.commitId := None; Types.params := Some params;
             Types.systemInstructions := systemInstructions;
             Types.systemContext := systemContext;
             Types.aiProvider := aiProvider |} in
        tryCatch
          (prInfo ← await (getPRDetails params pat);
           if bool_decide (toLowerCase (status prInfo) = "abandoned") then
             ret (withError (withAnalyzing started false)
                    "This PR is abandoned.")
           else
             found ← await (getPRMetadata params pat);
             let commitId := found.1 in
             let changes := found.2 in
             if bool_decide (length changes = 0) then
               throw {| message := "No changes found." |}
             else
               let firstBatch := take 10 changes in
               fileContents ←
                 await (AzureDevOpsService.fetchBatchContents requestItem
                          params pat firstBatch commitId);
               initialAnalysis ←
                 analyzeFunction prInfo fileContents 0
                   (ceilDiv (length changes) 10);
               ret {| isAnalyzing := false; error := None;
                      Types.prInfo := Some prInfo;
                      analysis := Some initialAnalysis;
                      allChanges := changes;
                      processedCount := length firstBatch;
                      Types.commitId := commitId;
                      Types.params := Types.params started;
                      Types.systemInstructions := Types.systemInstructions started;
                      Types.systemContext := Types.systemContext started;
                      Types.aiProvider := Types.aiProvider started |})
          (λ err, ret (withError (withAnalyzing started false) (message err)))
    end.

(** The handler reads [state] as of its rendering; no other update of the
    state comes in between, so [prev] in its [setState] calls is that state
    with [isAnalyzing] set. *)
Definition loadNextBatch (state : AppState) : Async AppState :=
  match prInfo state, params state with
  | Some info, Some params =>
      if bool_decide (length (allChanges state) = 0) then ret state
      else
        let loading := withAnalyzing state true in
        tryCatch
          (let nextBatch :=
             take 10 (drop (processedCount state) (allChanges state)) in
           fileContents ←
             await (AzureDevOpsService.fetchBatchContents requestItem
                      params pat nextBatch (commitId state));
           batchAnalysis ←
             analyzeFunction info fileContents
               (processedCount state / 10)
               (ceilDiv (length (allChanges state)) 10);
           ret {| isAnalyzing := false; error := error loading;
                  Types.prInfo := prInfo loading;
                  analysis := Some (merged (analysis loading) batchAnalysis);
                  allChanges := allChanges loading;
                  processedCount := processedCount loading + length nextBatch;
                  Types.commitId := commitId loading; Types.params := Types.params loading;
                  Types.systemInstructions := Types.systemInstructions loading;
                  Types.systemContext := Types.systemContext loading;
                  Types.aiProvider := Types.aiProvider loading |})
          (λ err, ret (withError (withAnalyzing loading false)
                         ("Batch failed: " +:+ message err)))
  | _, _ => ret state
  end.

End Component.
End App.

(** *** services/prReviewService.ts *)

Module PrReviewService.
Import Js.

Record PRReviewParams := {
  organization : string;
  project : string;
  repository : string;
  pullRequestId : Z
}.

(** The records below hold what the code copies out of the response, which
    has type [any]: each copied field is a value. *)
Record Identity := { displayName : JsVal; uniqueName : JsVal }.

Record PRReviewer := {
  reviewer : Identity;
  vote : JsVal;
  isRequired : JsVal
}.

Record PRReviewComment := {
  comment_id : JsVal;
  author : Identity;
  content : JsVal;
  comment_threadContext : JsVal;
  comment_publishedDate : JsVal;
  comment_lastUpdatedDate : JsVal;
  isDeleted : JsVal
}.

Record PRReviewThread := {
  thread_id : JsVal;
  thread_status : JsVal;
  comments : list PRReviewComment;
  threadContext : JsVal;
  publishedDate : JsVal;
  lastUpdatedDate : JsVal
}.

Record NamedLink := { name : JsVal; link_url : JsVal }.

Record PRReviewDetails := {
  details_pullRequestId : JsVal;
  title : JsVal;
  description : JsVal;
  createdBy : Identity;
  creationDate : JsVal;
  sourceRefName : JsVal;
  targetRefName : JsVal;
  status : JsVal;
  mergeStatus : JsVal;
  reviewers : list PRReviewer;
  threads : list PRReviewThread;
  url : JsVal;
  details_repository : NamedLink;
  details_project : NamedLink
}.

(** The callback of [data.reviewers?.map]. *)
Definition reviewerOf (r : JsVal) : completion PRReviewer :=
  who ← get r "reviewer";
  displayName ← get who "displayName";
  uniqueName ← get who "uniqueName";
  vote ← get r "vote";
  isRequired ← get r "isRequired";
  Normal {| reviewer := {| displayName := displayName;
                           uniqueName := uniqueName |};
            vote := vote;
            isRequired := isRequired |}.

(** The callback of [thread.comments?.map]. *)
Definition commentOf (comment : JsVal) : completion PRReviewComment :=
  id ← get comment "id";
  who ← get comment "author";
  displayName ← get who "displayName";
  uniqueName ← get who "uniqueName";
  content ← get comment "content";
  threadContext ← get comment "threadContext";
  publishedDate ← get comment "publishedDate";
  lastUpdatedDate ← get comment "lastUpdatedDate";
  isDeleted ← get comment "isDeleted";
  Normal {| comment_id := id;
            author := {| displayName := displayName;
                         uniqueName := uniqueName |};
            content := content;
            comment_threadContext := threadContext;
            comment_publishedDate := publishedDate;
            comment_lastUpdatedDate := lastUpdatedDate;
            isDeleted := isDeleted |}.

(** The callback of [data.threads?.map]. *)
Definition threadOf (thread : JsVal) : completion PRReviewThread :=
  id ← get thread "id";
  status ← get thread "status";
  rawComments ← get thread "comments";
  mapped ← optMap rawComments commentOf;
  threadContext ← get thread "threadContext";
  publishedDate ← get thread "publishedDate";
  lastUpdatedDate ← get thread "lastUpdatedDate";
  Normal {| thread_id := id;
            thread_status := status;
            comments := default [] mapped;
            threadContext := threadContext;
            publishedDate := publishedDate;
            lastUpdatedDate := lastUpdatedDate |}.

(** The object literal returned by [getPRReviewDetails], built from the
    response [data]. *)
Definition detailsOf (params : PRReviewParams) (data : JsVal)
  : completion PRReviewDetails :=
  pullRequestId ← get data "pullRequestId";
  title ← get data "title";
  description ← get data "description";
  createdBy ← get data "createdBy";
  creationDate ← get data "creationDate";
  sourceRefName ← get data "sourceRefName";
  targetRefName ← get data "targetRefName";
  status ← get data "status";
  mergeStatus ← get data "mergeStatus";
  rawReviewers ← get data "reviewers";
  mappedReviewers ← optMap rawReviewers reviewerOf;
  rawThreads ← get data "threads";
  mappedThreads ← optMap rawThreads threadOf;
  url ← get data "url";
  repo ← get data "repository";
  Normal
    {| details_pullRequestId := pullRequestId;
       title := title;
       description := orElse description (JStr "");
       createdBy :=
         {| displayName :=
              orElse (optGet createdBy "displayName") (JStr "Unknown");
            uniqueName :=
              orElse (orElse (optGet createdBy "uniqueName")
                             (optGet createdBy "email"))
                     (JStr "unknown@example.com") |};
       creationDate := creationDate;
       sourceRefName := sourceRefName;
       targetRefName := targetRefName;
       status := status;
       mergeStatus := orElse mergeStatus (JStr "unknown");
       reviewers := default [] mappedReviewers;
       threads := default [] mappedThreads;
       url := url;
       details_repository :=
         {| name := orElse (optGet repo "name") (JStr (repository params));
            link_url := orElse (optGet repo "url") (JStr "") |};
       details_project :=
         {| name := orElse (optGet (optGet repo "project") "name")
                           (JStr (project params));
            link_url := orElse (optGet (optGet repo "project") "url")
                               (JStr "") |} |}.

Section Review.
(** [fetchWithAuth(url, pat)] for the pull request of [params], with its
    threads: the parsed JSON of the response, or a thrown error. *)
Variable fetchWithAuth : PRReviewParams → string → completion JsVal.

Definition getPRReviewDetails (params : PRReviewParams) (pat : string)
  : completion PRReviewDetails :=
  data ← fetchWithAuth params pat;
  detailsOf params data.

End Review.

(** *** What the claims say of the returned details *)

(** [out] is [v], or [fallback] when [v] is absent or otherwise falsy. *)
Definition defaulted (v fallback out : JsVal) : Prop :=
  (truthy v = true ∧ out = v) ∨ (truthy v = false ∧ out = fallback).

(** [out] is the list copied from the array [v] entry by entry, or empty
    when [v] is absent. *)
Definition copiedList {A} (copied : JsVal → A → Prop) (v : JsVal)
    (out : list A) : Prop :=
  match v with
  | JUndefined | JNull => out = []
  | JArr items => Forall2 copied items out
  | _ => False
  end.

Definition identityCopied (who : JsVal) (out : Identity) : Prop :=
  displayName out = optGet who "displayName" ∧
  uniqueName out = optGet who "uniqueName".

Definition reviewerCopied (r : JsVal) (out : PRReviewer) : Prop :=
  identityCopied (optGet r "reviewer") (reviewer out) ∧
  vote out = optGet r "vote" ∧
  isRequired out = optGet r "isRequired".

Definition commentCopied (c : JsVal) (out : PRReviewComment) : Prop :=
  comment_id out = optGet c "id" ∧
  identityCopied (optGet c "author") (author out) ∧
  content out = optGet c "content" ∧
  comment_threadContext out = optGet c "threadContext" ∧
  comment_publishedDate out = optGet c "publishedDate" ∧
  comment_lastUpdatedDate out = optGet c "lastUpdatedDate" ∧
  isDeleted out = optGet c "isDeleted".

Definition threadCopied (t : JsVal) (out : PRReviewThread) : Prop :=
  thread_id out = optGet t "id" ∧
  thread_status out = optGet t "status" ∧
  copiedList commentCopied (optGet t "comments") (comments out) ∧
  threadContext out = optGet t "threadContext" ∧
  publishedDate out = optGet t "publishedDate" ∧
  lastUpdatedDate out = optGet t "lastUpdatedDate".

End PrReviewService.

(** ** Sample inputs for the examples *)

Module Samples.
Import Js Url Types.

Section Fetching.
Import AzureDevOpsService.

Definition sampleRequest (params : AzureDevOpsParams) (pat : string)
    (path : JsVal) (commitId : option string) : completion Response :=
  match path with
  | JStr "/logo.png" =>
      Normal {| ok := true; text := Normal (String NUL "PNG") |}
  | JStr "/gone.ts" => Normal {| ok := false; text := Normal "Not Found" |}
  | JStr "/down.ts" => Throw {| message := "Failed to fetch" |}
  | _ => Normal {| ok := true; text := Normal "export {}" |}
  end.

Definition sampleParams : AzureDevOpsParams :=
  {| organization := Some "contoso"; project := Some "web";
     repository := Some "shop"; pullRequestId := Some "42" |}.

Definition sampleChanges : list JsVal :=
  [JObj [("item", JObj [("path", JStr "/src/a.ts")]);
         ("changeType", JStr "edit")];
   JObj [("changeType", JStr "edit")];
   JObj [("path", JStr "/logo.png")];
   JObj [("path", JStr "/gone.ts")];
   JObj [("path", JStr "/down.ts")];
   JObj [("item", JStr "/old.ts"); ("changeType", JStr "Delete")]].

End Fetching.

Section Analysing.
Import App.

Definition sampleInfo : PRInfo :=
  {| title := "Add cart"; description := "Adds the cart page";
     createdBy := "Dev"; sourceBranch := "feature/cart";
     targetBranch := "main"; status := "active" |}.

Definition sampleAnalysis (label : string) : PRAnalysis :=
  {| summary := "Summary of " +:+ label;
     overallHealth := "Good";
     architecturalImpact := "Impact of " +:+ label;
     contextAlignment := Some ("Alignment of " +:+ label);
     keyPoints := ["Point of " +:+ label];
     securityConcerns := ["Concern of " +:+ label];
     performanceTips := ["Tip for " +:+ label];
     stats := {| complexityScore := 3; riskLevel := "Low";
                 estimatedReviewMinutes := 10; blastRadius := "Isolated";
                 testPresence := "Partial"; breakingChange := false |};
     codeReviewComments :=
       [{| file := label; line := Some 1%Z; comment := "Check " +:+ label;
           suggestedChange := None; severity := "low"; type := "style" |}] |}.

(** The analysis of a batch is labelled with its index. *)
Definition sampleAnalyze (info : PRInfo) (files : list FileDiff)
    (batchIndex totalBatches : nat) (instructions context : string)
  : completion PRAnalysis :=
  Normal (sampleAnalysis (if bool_decide (batchIndex = 0) then "batch 0"
                          else "a later batch")).

Definition sampleUrl : string :=
  "https://dev.azure.com/contoso/web/_git/shop/pullrequest/42".

Definition changeAt (path : string) : JsVal :=
  JObj [("item", JObj [("path", JStr path)]); ("changeType", JStr "edit")].

(** Twelve changes, the second of which has no path. *)
Definition twelveChanges : list JsVal :=
  [changeAt "/a"; JObj [("changeType", JStr "edit")]; changeAt "/c";
   changeAt "/d"; changeAt "/e"; changeAt "/f"; changeAt "/g"; changeAt "/h";
   changeAt "/i"; changeAt "/j"; changeAt "/k"; changeAt "/l"].

Definition initialState : AppState :=
  {| isAnalyzing := false; error := None; prInfo := None; analysis := None;
     allChanges := []; processedCount := 0; commitId := None; params := None;
     systemInstructions := ""; systemContext := ""; aiProvider := gemini |}.

(** A run of the component on the twelve changes. *)
Definition sampleStart (state : AppState) : Async AppState :=
  startAnalysis httpsURL (λ _ _, Normal sampleInfo)
    (λ _ _, Normal (Some "c0ffee", twelveChanges))
    sampleRequest sampleAnalyze sampleAnalyze
    sampleUrl "pat" gemini "" "" state.

Definition sampleNext (state : AppState) : Async AppState :=
  loadNextBatch sampleRequest sampleAnalyze sampleAnalyze
    "pat" gemini "" "" state.

Definition afterFirstBatch : AppState :=
  match outcome (sampleStart initialState) with
  | Normal state => state
  | Throw _ => initialState
  end.

End Analysing.


(** A reply whose content is no JSON. *)
Definition proseCall (info : PRInfo) (files : list FileDiff)
    (instructions context : string) : completion JsVal :=
  Normal (JObj [("choices",
                 JArr [JObj [("message",
                              JObj [("content", JStr "Sorry, no.")])]])]).

Definition strictParse (text : JsVal) : completion JsVal :=
  Throw {| message := "Unexpected token S in JSON at position 0" |}.

Definition noNormalize (parsed : JsVal) : completion PRAnalysis :=
  Throw TypeError.


Section Reviewing.
Import PrReviewService.

Definition sampleReviewParams : PRReviewParams :=
  {| organization := "contoso"; project := "web"; repository := "shop";
     pullRequestId := 42 |}.

(** A response whose author has an e-mail address and no unique name. *)
Definition authorByEmail : JsVal :=
  JObj [("pullRequestId", JNum 42);
        ("title", JStr "Add cart");
        ("createdBy", JObj [("email", JStr "dev@contoso.com")]);
        ("reviewers",
         JArr [JObj [("reviewer", JObj [("displayName", JStr "Rev")]);
                     ("vote", JNum 10)]])].

End Reviewing.

End Samples.

(** * Proofs *)

Module DiffProofs.
Import Diff.

Section Lcs.
Variables src tgt : list string.

Lemma lcsLength_0_l (j : nat) : lcsLength src tgt 0 j = 0.
Proof. by destruct j. Qed.

Lemma lcsLength_0_r (i : nat) : lcsLength src tgt i 0 = 0.
Proof. by destruct i. Qed.

Lemma lcsLength_eq (i j : nat) a :
  src !! i = Some a → tgt !! j = Some a →
  lcsLength src tgt (S i) (S j) = lcsLength src tgt i j + 1.
Proof. intros Ha Hb. simpl. rewrite Ha, Hb. by rewrite bool_decide_eq_true_2. Qed.

Lemma lcsLength_ne (i j : nat) a b :
  src !! i = Some a → tgt !! j = Some b → a ≠ b →
  lcsLength src tgt (S i) (S j)
  = lcsLength src tgt i (S j) `max` lcsLength src tgt (S i) j.
Proof.
  intros Ha Hb Hab. cbn [lcsLength]. rewrite Ha, Hb.
  rewrite bool_decide_eq_false_2 by done. reflexivity.
Qed.

Lemma sublist_snoc_inv {A} (c l : list A) x :
  c `sublist_of` l ++ [x] →
  c `sublist_of` l ∨ ∃ c', c = c' ++ [x] ∧ c' `sublist_of` l.
Proof.
  intros (c1 & c2 & -> & H1 & H2)%sublist_app_r.
  apply sublist_cons_r in H2 as [H2 | (c2' & -> & H2)].
  - apply sublist_nil_r in H2 as ->. left. by rewrite app_nil_r.
  - apply sublist_nil_r in H2 as ->. right. eauto.
Qed.

Lemma lcsLength_upper (i j : nat) (c : list string) :
  i ≤ length src → j ≤ length tgt →
  c `sublist_of` take i src → c `sublist_of` take j tgt →
  length c ≤ lcsLength src tgt i j.
Proof.
  revert j c. induction i as [|i IHi]; intros j c Hi Hj Hs Ht.
  { rewrite take_0 in Hs. apply sublist_nil_r in Hs as ->. simpl. lia. }
  revert c Hs Ht. induction j as [|j IHj]; intros c Hs Ht.
  { rewrite take_0 in Ht. apply sublist_nil_r in Ht as ->. simpl. lia. }
  destruct (lookup_lt_is_Some_2 src i) as [a Ha]; [lia|].
  destruct (lookup_lt_is_Some_2 tgt j) as [b Hb]; [lia|].
  rewrite (take_S_r _ _ _ Ha) in Hs. rewrite (take_S_r _ _ _ Hb) in Ht.
  destruct (decide (a = b)) as [->|Hab].
  - rewrite (lcsLength_eq _ _ _ Ha Hb).
    apply sublist_snoc_inv in Hs as [Hs | (c' & -> & Hs)].
    + apply sublist_snoc_inv in Ht as [Ht | (d' & -> & Ht)].
      * pose proof (IHi j c ltac:(lia) ltac:(lia) Hs Ht). lia.
      * rewrite length_app. simpl.
        assert (d' `sublist_of` take i src) as Hd.
        { etrans; [|exact Hs]. by apply sublist_inserts_r. }
        pose proof (IHi j d' ltac:(lia) ltac:(lia) Hd Ht). lia.
    + rewrite length_app. simpl.
      assert (c' `sublist_of` take j tgt) as Hc.
      { apply sublist_snoc_inv in Ht as [Ht | (d' & Heq & Ht)].
        - etrans; [|exact Ht]. by apply sublist_inserts_r.
        - by apply app_inj_tail in Heq as [-> _]. }
      pose proof (IHi j c' ltac:(lia) ltac:(lia) Hs Hc). lia.
  - rewrite (lcsLength_ne _ _ _ _ Ha Hb Hab).
    apply sublist_snoc_inv in Hs as [Hs | (c' & -> & Hs)].
    + assert (c `sublist_of` take (S j) tgt) as Hc
        by by rewrite (take_S_r _ _ _ Hb).
      pose proof (IHi (S j) c ltac:(lia) ltac:(lia) Hs Hc). lia.
    + apply sublist_snoc_inv in Ht as [Ht | (d' & Heq & Ht)].
      * assert (c' ++ [a] `sublist_of` take (S i) src) as Hc.
        { rewrite (take_S_r _ _ _ Ha). by apply sublist_app. }
        pose proof (IHj ltac:(lia) (c' ++ [a]) Hc Ht). lia.
      * apply app_inj_tail in Heq as [_ ?]. congruence.
Qed.

End Lcs.

Local Arguments lcsLength : simpl never.

Section Table.
Variables src tgt : list string.

Lemma tset_spec (T : list (list nat)) (i j v cols : nat) :
  i < length T →
  (∀ a row, T !! a = Some row → length row = cols) →
  j < cols →
  ∃ T', tset T i j v = Some T' ∧ length T' = length T ∧
        (∀ a row, T' !! a = Some row → length row = cols) ∧
        (∀ a b, tget T' a b
                = if decide (a = i ∧ b = j) then Some v else tget T a b).
Proof.
  intros Hi Hcols Hj.
  destruct (lookup_lt_is_Some_2 T i Hi) as [row Hrow].
  pose proof (Hcols _ _ Hrow) as Hlen.
  exists (<[i := <[j := v]> row]> T). unfold tset. rewrite Hrow. simpl.
  rewrite decide_True by lia. split_and!; [done|by rewrite length_insert|..].
  - intros a row' [(-> & <- & _) | (_ & Hr)]%list_lookup_insert_Some.
    + by rewrite length_insert.
    + eauto.
  - intros a b. unfold tget. destruct (decide (a = i)) as [->|Hne].
    + rewrite list_lookup_insert_eq, Hrow by done. simpl.
      case_decide as Hd.
      * destruct Hd as [_ ->]. apply list_lookup_insert_eq. lia.
      * apply list_lookup_insert_ne. intros ->. by apply Hd.
    + rewrite list_lookup_insert_ne by done.
      case_decide as Hd; [by destruct Hd|done].
Qed.

Lemma fillCell_ok (T : list (list nat)) (i j : nat) :
  tableInv src tgt T i j → 1 ≤ i ≤ length src → 1 ≤ j ≤ length tgt →
  ∃ T', fillCell src tgt i j T = Some T' ∧ tableInv src tgt T' i (S j).
Proof.
  intros [Hrows Hcols Hvals] Hi Hj.
  destruct i as [|i]; [lia|]. destruct j as [|j]; [lia|].
  destruct (lookup_lt_is_Some_2 src i) as [a Ha]; [lia|].
  destruct (lookup_lt_is_Some_2 tgt j) as [b Hb]; [lia|].
  unfold fillCell. rewrite !Nat.sub_succ, !Nat.sub_0_r, Ha, Hb. simpl.
  assert (∀ v, v = lcsLength src tgt (S i) (S j) →
    ∃ T', tset T (S i) (S j) v = Some T' ∧ tableInv src tgt T' (S i) (S (S j)))
    as Hset.
  { intros v ->.
    destruct (tset_spec T (S i) (S j) (lcsLength src tgt (S i) (S j))
                (length tgt + 1)) as (T' & -> & Hlen & Hcols' & Hget);
      [lia|done|lia|].
    exists T'. split; [done|]. split; [lia|done|].
    intros a' b' Ha' Hb' Hk. rewrite Hget. case_decide as Hd.
    - by destruct Hd as [-> ->].
    - apply Hvals; [done..|]. unfold known in *. lia. }
  case_bool_decide as Hab.
  - subst b. rewrite (Hvals i j) by (unfold known; lia). simpl.
    apply Hset. by rewrite (lcsLength_eq _ _ _ _ a).
  - rewrite (Hvals i (S j)), (Hvals (S i) j) by (unfold known; lia). simpl.
    apply Hset. by rewrite (lcsLength_ne _ _ _ _ a b).
Qed.

Lemma inner_loop_ok (count : nat) : ∀ (j i : nat) (T : list (list nat)),
  tableInv src tgt T i j → 1 ≤ i ≤ length src → 1 ≤ j → j + count = length tgt + 1 →
  ∃ T', for_loop count j (fillCell src tgt i) T = Some T' ∧
        tableInv src tgt T' i (length tgt + 1).
Proof.
  induction count as [|count IH]; intros j i T Hinv Hi Hj Hc; simpl.
  - exists T. split; [done|]. by replace (length tgt + 1) with j by lia.
  - destruct (fillCell_ok T i j Hinv Hi) as (T1 & -> & Hinv1); [lia|]. simpl.
    apply IH; [done|done|lia|lia].
Qed.

Lemma tableInv_next_row (T : list (list nat)) (i : nat) :
  tableInv src tgt T i (length tgt + 1) → tableInv src tgt T (S i) 1.
Proof.
  intros [Hrows Hcols Hvals]. split; [done..|].
  intros a b Ha Hb Hk. apply Hvals; [done..|]. unfold known in *. lia.
Qed.

Lemma outer_loop_ok (count : nat) : ∀ (i : nat) (T : list (list nat)),
  tableInv src tgt T i 1 → 1 ≤ i → i + count = length src + 1 →
  ∃ T', for_loop count i
          (λ i, for_loop (length tgt) 1 (fillCell src tgt i)) T = Some T' ∧
        tableInv src tgt T' (length src + 1) 1.
Proof.
  induction count as [|count IH]; intros i T Hinv Hi Hc; simpl.
  - exists T. split; [done|]. by replace (length src + 1) with i by lia.
  - destruct (inner_loop_ok (length tgt) 1 i T Hinv) as (T1 & -> & Hinv1);
      [lia..|]. simpl.
    apply IH; [by apply tableInv_next_row|lia|lia].
Qed.

Lemma newTable_inv :
  tableInv src tgt (newTable (length src + 1) (length tgt + 1)) 1 1.
Proof.
  unfold newTable. split.
  - by rewrite length_replicate.
  - intros a row [-> _]%lookup_replicate. by rewrite length_replicate.
  - intros a b Ha Hb Hk. unfold tget.
    rewrite lookup_replicate_2 by lia. simpl.
    rewrite lookup_replicate_2 by lia. f_equal.
    unfold known in Hk.
    assert (a = 0 ∨ b = 0) as [-> | ->] by lia;
      [by rewrite lcsLength_0_l | by rewrite lcsLength_0_r].
Qed.

Lemma buildTable_ok :
  ∃ T, buildTable src tgt = Some T ∧
       ∀ a b, a ≤ length src → b ≤ length tgt →
              tget T a b = Some (lcsLength src tgt a b).
Proof.
  destruct (outer_loop_ok (length src) 1 _ newTable_inv) as (T & HT & Hinv);
    [lia..|].
  exists T. split; [exact HT|].
  intros a b Ha Hb. apply (inv_vals _ _ _ _ _ Hinv); [done..|].
  unfold known. lia.
Qed.

End Table.

Section Align.
Variables src tgt : list string.

Lemma kept_snoc (side : list DiffLine) (d : DiffLine) :
  kept (side ++ [d]) = kept side ++ (if decide (type d ≠ empty) then [d] else []).
Proof. unfold kept. rewrite filter_app. f_equal. Qed.

Lemma sameRows_snoc (L R : list DiffLine) (l r : DiffLine) :
  length L = length R →
  sameRows (L ++ [l]) (R ++ [r])
  = sameRows L R ++
    (if decide (type l = same ∧ type r = same) then [(l, r)] else []).
Proof.
  intros Hlen. unfold sameRows.
  rewrite zip_with_app by done. rewrite filter_app. f_equal.
Qed.

Lemma seq_snoc (i : nat) : seq 1 (S i) = seq 1 i ++ [S i].
Proof. by rewrite seq_S. Qed.

Lemma aligned_nil : aligned src tgt 0 0 [] [].
Proof. split; try done. all: try constructor. Qed.

Lemma aligned_same (i j : nat) (L R : list DiffLine) (a : string) :
  aligned src tgt i j L R → src !! i = Some a → tgt !! j = Some a →
  aligned src tgt (S i) (S j)
    (L ++ [{| text := a; lineNumber := Some (S i); type := same |}])
    (R ++ [{| text := a; lineNumber := Some (S j); type := same |}]).
Proof.
  intros [Hrows Hlt Hln Hrt Hrn Hsl Hsr Hse Hlcs] Ha Hb.
  pose proof (Forall2_length _ _ _ Hrows) as Hlen.
  split;
    rewrite ?(take_S_r _ _ _ Ha), ?(take_S_r _ _ _ Hb), ?seq_snoc, ?kept_snoc,
      ?sameRows_snoc, ?fmap_app, ?length_app by done;
    simpl.
  - apply Forall2_app; [done|]. constructor; [|done]. by left.
  - by f_equal.
  - by f_equal.
  - by f_equal.
  - by f_equal.
  - by apply sublist_app.
  - by apply sublist_app.
  - by f_equal.
  - rewrite (lcsLength_eq _ _ _ _ a) by done. lia.
Qed.

Lemma aligned_added (i j : nat) (L R : list DiffLine) (b : string) :
  aligned src tgt i j L R → tgt !! j = Some b →
  lcsLength src tgt i (S j) = lcsLength src tgt i j →
  aligned src tgt i (S j)
    (L ++ [{| text := ""; lineNumber := None; type := empty |}])
    (R ++ [{| text := b; lineNumber := Some (S j); type := added |}]).
Proof.
  intros [Hrows Hlt Hln Hrt Hrn Hsl Hsr Hse Hlcs] Hb Hstay.
  pose proof (Forall2_length _ _ _ Hrows) as Hlen.
  split;
    rewrite ?(take_S_r _ _ _ Hb), ?seq_snoc, ?kept_snoc, ?sameRows_snoc,
      ?fmap_app, ?length_app by done;
    simpl; rewrite ?app_nil_r.
  - apply Forall2_app; [done|]. constructor; [|done]. right. by left.
  - done.
  - done.
  - by f_equal.
  - by f_equal.
  - done.
  - by apply sublist_inserts_r.
  - done.
  - lia.
Qed.

Lemma aligned_removed (i j : nat) (L R : list DiffLine) (a : string) :
  aligned src tgt i j L R → src !! i = Some a →
  lcsLength src tgt (S i) j = lcsLength src tgt i j →
  aligned src tgt (S i) j
    (L ++ [{| text := a; lineNumber := Some (S i); type := removed |}])
    (R ++ [{| text := ""; lineNumber := None; type := empty |}]).
Proof.
  intros [Hrows Hlt Hln Hrt Hrn Hsl Hsr Hse Hlcs] Ha Hstay.
  pose proof (Forall2_length _ _ _ Hrows) as Hlen.
  split;
    rewrite ?(take_S_r _ _ _ Ha), ?seq_snoc, ?kept_snoc, ?sameRows_snoc,
      ?fmap_app, ?length_app by done;
    simpl; rewrite ?app_nil_r.
  - apply Forall2_app; [done|]. constructor; [|done]. right. by right.
  - by f_equal.
  - by f_equal.
  - done.
  - done.
  - by apply sublist_inserts_r.
  - done.
  - done.
  - lia.
Qed.

Lemma backtrack_ok (T : list (list nat)) :
  (∀ a b, a ≤ length src → b ≤ length tgt →
          tget T a b = Some (lcsLength src tgt a b)) →
  ∀ (fuel i j : nat) (l r : list DiffLine),
    i ≤ length src → j ≤ length tgt → i + j ≤ fuel →
    ∃ L R, backtrack fuel src tgt T i j l r
           = Some (l ++ reverse L, r ++ reverse R) ∧
           aligned src tgt i j L R.
Proof.
  intros HT fuel. induction fuel as [|fuel IH]; intros i j l r Hi Hj Hf.
  { assert (i = 0 ∧ j = 0) as [-> ->] by lia. exists [], []. simpl.
    rewrite !app_nil_r. split; [done|apply aligned_nil]. }
  assert (∀ (i' j' : nat) (dl dr : DiffLine) (i0 j0 : nat),
    i' ≤ length src → j' ≤ length tgt → i' + j' ≤ fuel →
    (∀ L R, aligned src tgt i' j' L R → aligned src tgt i0 j0 (L ++ [dl]) (R ++ [dr])) →
    ∃ L R, backtrack fuel src tgt T i' j' (l ++ [dl]) (r ++ [dr])
           = Some (l ++ reverse L, r ++ reverse R) ∧
           aligned src tgt i0 j0 L R) as Hstep.
  { intros i' j' dl dr i0 j0 Hi' Hj' Hf' Hal.
    destruct (IH i' j' (l ++ [dl]) (r ++ [dr]) Hi' Hj' Hf')
      as (L & R & -> & HLR).
    exists (L ++ [dl]), (R ++ [dr]). rewrite !reverse_snoc, <- !app_assoc.
    split; [done|by apply Hal]. }
  destruct i as [|i], j as [|j].
  - exists [], []. simpl. rewrite !app_nil_r. split; [done|apply aligned_nil].
  - destruct (lookup_lt_is_Some_2 tgt j) as [b Hb]; [lia|].
    cbn [backtrack]. simpl. rewrite Nat.sub_0_r, Hb. simpl.
    apply Hstep; [lia..|]. intros L R HLR.
    apply aligned_added; [done..|]. by rewrite !lcsLength_0_l.
  - destruct (lookup_lt_is_Some_2 src i) as [a Ha]; [lia|].
    cbn [backtrack]. simpl. rewrite Nat.sub_0_r, Ha. simpl.
    apply Hstep; [lia..|]. intros L R HLR.
    apply aligned_removed; [done..|]. by rewrite !lcsLength_0_r.
  - destruct (lookup_lt_is_Some_2 src i) as [a Ha]; [lia|].
    destruct (lookup_lt_is_Some_2 tgt j) as [b Hb]; [lia|].
    cbn [backtrack]. simpl. rewrite !Nat.sub_0_r, Ha, Hb. simpl.
    case_bool_decide as Hab.
    + subst b.
      apply Hstep; [lia..|]. intros L R HLR. by apply aligned_same.
    + rewrite (HT (S i) j), (HT i (S j)) by lia. simpl.
      pose proof (lcsLength_ne src tgt i j a b Ha Hb Hab) as Hmax.
      case_bool_decide as Hcmp.
      * apply Hstep; [lia..|]. intros L R HLR.
        apply aligned_added; [done..|]. lia.
      * apply Hstep; [lia..|]. intros L R HLR.
        apply aligned_removed; [done..|]. lia.
Qed.

Lemma sideBySide_ok :
  ∃ left right,
    (lcsTable ← buildTable src tgt;
     '(left, right) ← backtrack (length src + length tgt) src tgt lcsTable
                        (length src) (length tgt) [] [];
     Some {| left := reverse left; right := reverse right |})
    = Some {| left := left; right := right |} ∧
    aligned src tgt (length src) (length tgt) left right.
Proof.
  destruct (buildTable_ok src tgt) as (T & -> & HT). simpl.
  destruct (backtrack_ok T HT (length src + length tgt)
              (length src) (length tgt) [] []) as (L & R & -> & HLR);
    [lia..|].
  exists L, R. simpl. by rewrite !reverse_involutive.
Qed.

End Align.

Lemma buildSideBySideDiff_aligned (source target : string) :
  ∃ diff, buildSideBySideDiff source target = Some diff ∧
    aligned (splitLines source) (splitLines target)
      (length (splitLines source)) (length (splitLines target))
      (left diff) (right diff).
Proof.
  unfold buildSideBySideDiff. cbn [normalizeContent].
  destruct (sideBySide_ok (splitLines source) (splitLines target))
    as (L & R & -> & HLR).
  by exists {| left := L; right := R |}.
Qed.

Lemma unifiedLines_ok (left right : list DiffLine) (count : nat) :
  ∀ index : nat,
    index + count = length left → length left = length right →
    unifiedLines left right index count
    = Some (zip_with unifiedLine (drop index left) (drop index right)).
Proof.
  induction count as [|count IH]; intros index Hc Hlen; simpl.
  - by rewrite drop_ge by lia.
  - destruct (lookup_lt_is_Some_2 left index) as [l Hl]; [lia|].
    destruct (lookup_lt_is_Some_2 right index) as [r Hr]; [lia|].
    rewrite Hl, Hr. simpl. rewrite IH by lia. simpl.
    by rewrite (drop_S _ _ _ Hl), (drop_S _ _ _ Hr).
Qed.

Lemma rowTypes_branchTypes (l r : DiffLine) : rowTypes l r → branchTypes l r.
Proof.
  unfold rowTypes, branchTypes, unifiedBranch.
  intros [[Hl Hr] | [[Hl Hr] | [Hl Hr]]]; rewrite Hl, Hr; by simpl.
Qed.

Example diff_of_three_lines :
  buildSideBySideDiff
    ("a" +:+ String LF "b" +:+ String LF "c")
    ("b" +:+ String CR (String LF "x") +:+ String LF "c")
  = Some
      {| left :=
           [{| text := "a"; lineNumber := Some 1; type := removed |};
            {| text := "b"; lineNumber := Some 2; type := same |};
            {| text := ""; lineNumber := None; type := empty |};
            {| text := "c"; lineNumber := Some 3; type := same |}];
         right :=
           [{| text := ""; lineNumber := None; type := empty |};
            {| text := "b"; lineNumber := Some 1; type := same |};
            {| text := "x"; lineNumber := Some 2; type := added |};
            {| text := "c"; lineNumber := Some 3; type := same |}] |}.
Proof. vm_compute. reflexivity. Qed.

Example diff_of_empty_texts :
  buildSideBySideDiff "" ""
  = Some {| left := [{| text := ""; lineNumber := Some 1; type := same |}];
            right := [{| text := ""; lineNumber := Some 1; type := same |}] |}.
Proof. vm_compute. reflexivity. Qed.

Example unified_of_three_lines :
  buildUnifiedDiffText
    ("a" +:+ String LF "b" +:+ String LF "c")
    ("b" +:+ String LF "x" +:+ String LF "c") "f.ts"
  = Some (Js.join (String LF "")
            ["--- a/f.ts"; "+++ b/f.ts"; "-a"; " b"; "+x"; " c"]).
Proof. vm_compute. reflexivity. Qed.

(** C1: the rows of the diff of [source] against [target] whose two entries
    both have type [same] carry, on the left and on the right, one and the
    same sequence of lines; that sequence is a subsequence of the source
    lines and of the target lines, and no common subsequence of the two line
    lists is longer than the number of those rows. *)
Theorem C1_same_rows_longest_common_subsequence (source target : string) :
  ∃ diff, buildSideBySideDiff source target = Some diff ∧
    let rows := sameRows (left diff) (right diff) in
    let common := (text ∘ fst) <$> rows in
    common = (text ∘ snd) <$> rows ∧
    length common = length rows ∧
    common `sublist_of` splitLines source ∧
    common `sublist_of` splitLines target ∧
    ∀ c : list string,
      c `sublist_of` splitLines source → c `sublist_of` splitLines target →
      length c ≤ length rows.
Proof.
  destruct (buildSideBySideDiff_aligned source target) as (diff & Hd & Hal).
  exists diff. split; [done|]. destruct Hal as [Hrows Hlt Hln Hrt Hrn Hsl Hsr Hse Hlcs].
  rewrite !firstn_all in *. cbn zeta. split_and!.
  - done.
  - by rewrite length_fmap.
  - done.
  - by rewrite Hse.
  - intros c Hs Ht. rewrite Hlcs.
    apply lcsLength_upper; by rewrite ?firstn_all.
Qed.

(** C2: the two sides of a diff have the same length; the entries of [left]
    that are not of type [empty] are the source lines in order, numbered
    1, 2, ...; the entries of [right] that are not of type [empty] are the
    target lines in order, numbered 1, 2, .... *)
Theorem C2_sides_project_to_the_inputs (source target : string) :
  ∃ diff, buildSideBySideDiff source target = Some diff ∧
    length (left diff) = length (right diff) ∧
    text <$> kept (left diff) = splitLines source ∧
    lineNumber <$> kept (left diff)
      = Some <$> seq 1 (length (splitLines source)) ∧
    text <$> kept (right diff) = splitLines target ∧
    lineNumber <$> kept (right diff)
      = Some <$> seq 1 (length (splitLines target)).
Proof.
  destruct (buildSideBySideDiff_aligned source target) as (diff & Hd & Hal).
  exists diff. split; [done|]. destruct Hal as [Hrows Hlt Hln Hrt Hrn Hsl Hsr Hse Hlcs].
  rewrite !firstn_all in *. split_and!; try done.
  by eapply Forall2_length.
Qed.

(** C9: at every index of a diff the types of the left and right entries are
    (same, same), (empty, added) or (removed, empty); and
    [buildUnifiedDiffText] writes one line per index, by the '+' branch
    exactly at the rows (empty, added), by the '-' branch exactly at the rows
    (removed, empty) and by the ' ' branch exactly at the rows (same, same). *)
Theorem C9_row_types_and_unified_branches (source target : string) :
  ∃ diff, buildSideBySideDiff source target = Some diff ∧
    Forall2 (λ l r, rowTypes l r ∧ branchTypes l r) (left diff) (right diff) ∧
    ∀ filePath : string,
      buildUnifiedDiffText source target filePath
      = Some (Js.join (String LF "")
                (("--- a/" +:+ filePath) :: ("+++ b/" +:+ filePath)
                 :: zip_with unifiedLine (left diff) (right diff))).
Proof.
  destruct (buildSideBySideDiff_aligned source target) as (diff & Hd & Hal).
  exists diff. split; [done|]. destruct Hal as [Hrows Hlt Hln Hrt Hrn Hsl Hsr Hse Hlcs]. split.
  - eapply Forall2_impl; [done|]. intros l r H.
    split; [done|by apply rowTypes_branchTypes].
  - intros filePath. unfold buildUnifiedDiffText. rewrite Hd. simpl.
    rewrite (unifiedLines_ok _ _ _ 0); [by rewrite !drop_0|lia|].
    by eapply Forall2_length.
Qed.

End DiffProofs.

Module UrlProofs.
Import Js Url.

Lemma azure_parsePRUrl_unfold (newURL : string → completion URL) (url : string) :
  AzureDevOpsService.parsePRUrl newURL url
  = match newURL url with
    | Throw _ => Normal None
    | Normal prUrl =>
        let pathParts := pathPartsOf prUrl in
        if bool_decide (6 ≤ length pathParts)
           && bool_decide (pathParts !! 2 = Some "_git")
           && bool_decide (pathParts !! 4 = Some "pullrequest")
        then Normal (Some {| organization := pathParts !! 0;
                             project := pathParts !! 1;
                             repository := pathParts !! 3;
                             pullRequestId := pathParts !! 5 |})
        else if bool_decide (split "." (hostname prUrl) !! 1
                             = Some "visualstudio")
                && bool_decide (pathParts !! 1 = Some "_git")
        then Normal (Some {| organization := split "." (hostname prUrl) !! 0;
                             project := pathParts !! 0;
                             repository := pathParts !! 2;
                             pullRequestId := pathParts !! 4 |})
        else Normal None
    end.
Proof.
  unfold AzureDevOpsService.parsePRUrl, pathPartsOf.
  destruct (newURL url) as [prUrl|e]; [|done]. cbn.
  repeat case_bool_decide; done.
Qed.

Lemma azure_parsesPullRequestLinks (newURL : string → completion URL) :
  parsesPullRequestLinks newURL (AzureDevOpsService.parsePRUrl newURL).
Proof.
  split_and!.
  - intros url prUrl org project repo id rest Hurl Hparts.
    rewrite azure_parsePRUrl_unfold, Hurl. cbn zeta. rewrite Hparts. cbn.
    rewrite bool_decide_eq_true_2 by lia. done.
  - intros url e Hurl. by rewrite azure_parsePRUrl_unfold, Hurl.
  - intros url prUrl Hurl Hdev Hvs.
    rewrite azure_parsePRUrl_unfold, Hurl. cbn zeta.
    unfold devAzureShape, visualStudioShape in *.
    repeat case_bool_decide; simpl; try done; naive_solver.
  - intros url. rewrite azure_parsePRUrl_unfold.
    destruct (newURL url); cbn zeta; [|by eauto].
    repeat case_match; eauto.
Qed.

(** C10: on every input the parser exported by the pull-request creation
    service and the one exported by the Azure DevOps service return the same
    result. *)
Theorem C10_parsers_agree (newURL : string → completion URL) (url : string) :
  PrCreationService.parsePRUrl newURL url
  = AzureDevOpsService.parsePRUrl newURL url.
Proof. reflexivity. Qed.

(** C5: a link whose path has the parts org, project, "_git", repo,
    "pullrequest", id (and maybe more) parses to those four fields; a text
    that is no URL, and a URL of neither the dev.azure.com nor the
    visualstudio.com shape, parses to null; and the parser never throws.
    This holds for the parser of each of the two services. *)
Theorem C5_parsePRUrl_links (newURL : string → completion URL) :
  parsesPullRequestLinks newURL (AzureDevOpsService.parsePRUrl newURL) ∧
  parsesPullRequestLinks newURL (PrCreationService.parsePRUrl newURL).
Proof. split; apply azure_parsesPullRequestLinks. Qed.

Example parse_dev_azure :
  AzureDevOpsService.parsePRUrl httpsURL
    "https://dev.azure.com/contoso/web/_git/shop/pullrequest/42"
  = Normal (Some {| organization := Some "contoso"; project := Some "web";
                    repository := Some "shop"; pullRequestId := Some "42" |}).
Proof. reflexivity. Qed.

Example parse_visualstudio :
  AzureDevOpsService.parsePRUrl httpsURL
    "https://contoso.visualstudio.com/web/_git/shop/pullrequest/42"
  = Normal (Some {| organization := Some "contoso"; project := Some "web";
                    repository := Some "shop"; pullRequestId := Some "42" |}).
Proof. reflexivity. Qed.

Example parse_other_site :
  AzureDevOpsService.parsePRUrl httpsURL "https://example.org/a/b/c"
  = Normal None.
Proof. reflexivity. Qed.

Example parse_no_url :
  AzureDevOpsService.parsePRUrl httpsURL "dev.azure.com/contoso" = Normal None.
Proof. reflexivity. Qed.

End UrlProofs.

Module FetchProofs.
Import Js Url Types AzureDevOpsService.

Lemma length_append (a b : string) :
  String.length (a +:+ b) = String.length a + String.length b.
Proof. induction a as [|c a IH]; simpl; [done|by rewrite IH]. Qed.

Lemma length_substring_0 (n : nat) (s : string) :
  String.length (String.substring 0 n s) = n `min` String.length s.
Proof.
  revert s. induction n as [|n IH]; intros [|c s]; simpl; try done.
  by rewrite IH.
Qed.

Lemma mapAll_Normal {A B} (f : A → completion B) (xs : list A) (ys : list B) :
  mapAll f xs = Normal ys → Forall2 (λ x y, f x = Normal y) xs ys.
Proof.
  revert ys. induction xs as [|x xs IH]; intros ys; simpl.
  - intros [= <-]. constructor.
  - destruct (f x) as [y|e] eqn:Hx; [|done]. cbn.
    destruct (mapAll f xs) as [ys'|e]; [|done]. cbn.
    intros [= <-]. constructor; [done|by apply IH].
Qed.

Lemma MAX_CONTENT_value : Z.of_nat MAX_CONTENT = 20000%Z.
Proof. unfold MAX_CONTENT. lia. Qed.

Local Opaque MAX_CONTENT.

Lemma admissibleContent_length (c : string) :
  admissibleContent c →
  String.length c ≤ MAX_CONTENT + String.length TRUNCATED_SUFFIX.
Proof.
  pose proof MAX_CONTENT_value.
  intros [-> | [-> | [-> | (t & _ & [[Hlen ->] | [Hlen ->]])]]].
  - simpl. lia.
  - simpl. lia.
  - simpl. lia.
  - lia.
  - rewrite length_append, length_substring_0. lia.
Qed.

Lemma includesChar_append (c : ascii) (a b : string) :
  includesChar c (a +:+ b) = includesChar c a || includesChar c b.
Proof.
  induction a as [|c' a IH]; simpl; [done|]. by rewrite IH, orb_assoc.
Qed.

Lemma includesChar_substring_0 (c : ascii) (n : nat) (s : string) :
  includesChar c s = false → includesChar c (String.substring 0 n s) = false.
Proof.
  revert s. induction n as [|n IH]; intros [|c' s]; simpl; try done.
  intros [-> Hs]%orb_false_iff. by rewrite IH.
Qed.

Lemma admissibleContent_no_NUL (c : string) :
  admissibleContent c → includesChar NUL c = false.
Proof.
  intros [-> | [-> | [-> | (t & Ht & [[_ ->] | [_ ->]])]]]; try done.
  rewrite includesChar_append, includesChar_substring_0 by done. done.
Qed.

Section Fetch.
Variable requestItem :
  AzureDevOpsParams → string → JsVal → option string → completion Response.

Lemma fetchContent_ok (params : AzureDevOpsParams) (pat : string)
    (path : JsVal) (commitId : option string) :
  ∃ c, fetchContent requestItem params pat path commitId = Normal c ∧
       admissibleContent c.
Proof.
  unfold fetchContent, admissibleContent.
  destruct (requestItem params pat path commitId) as [[isOk body]|e]; cbn;
    [|by eauto 6].
  destruct isOk; [|by eauto 6].
  destruct body as [fetched|e]; cbn; [|by eauto 6].
  destruct (includesChar NUL fetched) eqn:Hnul; [by eauto 6|].
  case_bool_decide as Hlen; cbn.
  - eexists. split; [done|]. do 3 right. exists fetched. eauto.
  - eexists. split; [done|]. do 3 right. exists fetched.
    split; [done|]. left. split; [lia|done].
Qed.

Lemma fetchChange_ok (params : AzureDevOpsParams) (pat : string)
    (commitId : option string) (change : JsVal) (f : FileDiff) :
  fetchChange requestItem params pat commitId change = Normal (Some f) →
  admissibleContent (content f) ∧ fileOf change f ∧ hasPath change = true.
Proof.
  unfold fetchChange, fileOf, hasPath.
  destruct (changePath change) as [path|e]; cbn; [|done].
  destruct (truthy path) eqn:Hpath; cbn; [|done].
  destruct (get change "changeType") as [rawType|e]; cbn; [|done].
  destruct (lowerCased _) as [lowered|e]; cbn; [|done].
  assert (∃ c, (if negb (bool_decide (lowered ∈ skipTypes))
                then fetchContent requestItem params pat path commitId
                else Normal "") = Normal c ∧ admissibleContent c)
    as (c & -> & Hc).
  { destruct (negb _); [apply fetchContent_ok|].
    eexists. split; [done|by left]. }
  cbn.
  destruct (get change "sourceServerItem"); cbn; [|done].
  destruct (get change "originalPath"); cbn; [|done].
  by intros [= <-].
Qed.

Lemma fetchChange_None (params : AzureDevOpsParams) (pat : string)
    (commitId : option string) (change : JsVal) :
  fetchChange requestItem params pat commitId change = Normal None →
  hasPath change = false.
Proof.
  unfold fetchChange, hasPath.
  destruct (changePath change) as [path|e]; cbn; [|done].
  destruct (truthy path) eqn:Hpath; cbn; [|done].
  destruct (get change "changeType") as [rawType|e]; cbn; [|done].
  destruct (lowerCased _) as [lowered|e]; cbn; [|done].
  destruct (if negb _ then _ else _); cbn; [|done].
  destruct (get change "sourceServerItem"); cbn; [|done].
  by destruct (get change "originalPath").
Qed.

Lemma fetchBatchContents_ok (params : AzureDevOpsParams) (pat : string)
    (changes : list JsVal) (commitId : option string) (files : list FileDiff) :
  fetchBatchContents requestItem params pat changes commitId = Normal files →
  Forall (λ f, admissibleContent (content f)) files ∧
  Forall2 fileOf (filter (λ change, hasPath change = true) changes) files.
Proof.
  unfold fetchBatchContents.
  destruct (mapAll _ changes) as [res|e] eqn:Hres; cbn; [|done].
  intros [= <-]. apply mapAll_Normal in Hres. unfold nonNull.
  induction Hres as [|change r changes res Hr _ [IH1 IH2]]; [by split|].
  destruct r as [f|].
  - apply fetchChange_ok in Hr as (Hc & Hf & Hp).
    rewrite filter_cons_True by done. cbn. split; by constructor.
  - apply fetchChange_None in Hr.
    rewrite filter_cons_False by congruence. done.
Qed.

Lemma fetchChange_returns (params : AzureDevOpsParams) (pat : string)
    (commitId : option string) (change : JsVal) :
  plainChange change →
  ∃ r, fetchChange requestItem params pat commitId change = Normal r.
Proof.
  intros (fields & -> & Htype). unfold fetchChange, changePath. cbn.
  destruct (truthy (orElse _ _)); cbn; [|by eexists].
  assert (∃ lowered,
            lowerCased (orElse (lookupField "changeType" fields) (JStr "edit"))
            = Normal lowered) as [lowered ->].
  { unfold orElse. destruct Htype as [-> | Hstr]; [by eexists|].
    destruct (lookupField "changeType" fields); try done.
    destruct (truthy _); by eexists. }
  cbn.
  destruct (fetchContent_ok params pat
              (orElse (orElse (optGet (lookupField "item" fields) "path")
                         (lookupField "path" fields))
                 (if truthy (lookupField "item" fields)
                     && isString (lookupField "item" fields)
                  then lookupField "item" fields else JNull)) commitId)
    as (c & Hc & _).
  destruct (negb _); [rewrite Hc|]; cbn; by eexists.
Qed.

(** On change entries of the usual form the promise of [fetchBatchContents]
    is fulfilled. *)
Lemma fetchBatchContents_returns (params : AzureDevOpsParams) (pat : string)
    (changes : list JsVal) (commitId : option string) :
  Forall plainChange changes →
  ∃ files,
    fetchBatchContents requestItem params pat changes commitId = Normal files.
Proof.
  intros Hplain. unfold fetchBatchContents.
  assert (∃ res, mapAll (fetchChange requestItem params pat commitId) changes
                 = Normal res) as [res ->]; [|cbn; eauto].
  induction Hplain as [|change changes Hchange _ [res IH]]; [by eexists|].
  destruct (fetchChange_returns params pat commitId change Hchange) as [r Hr].
  cbn [mapAll]. rewrite Hr. cbn. rewrite IH. cbn. eauto.
Qed.

Lemma fetchContent_follows (params : AzureDevOpsParams) (pat : string)
    (path : JsVal) (commitId : option string) (file : FileDiff) :
  ¬ skipsFetch file →
  fetchContent requestItem params pat path commitId = Normal (content file) →
  contentAsFetched (requestItem params pat path commitId) file.
Proof.
  intros Hskip. unfold fetchContent, contentAsFetched.
  destruct (requestItem params pat path commitId) as [[isOk body]|e]; cbn.
  - destruct isOk; cbn; [|intros [= <-]; left; by eauto].
    destruct body as [fetched|e]; cbn.
    + destruct (includesChar NUL fetched) eqn:Hnul.
      { intros [= <-]. right. left. by eauto 10. }
      case_bool_decide as Hlen; intros [= <-]; do 3 right;
        (split; [done|]); eexists _, fetched; split_and!; try done.
      * by right.
      * left. split; [lia|done].
    + intros [= <-]. do 2 right. left. split_and!; [done..|].
      right. by eauto.
  - intros [= <-]. do 2 right. left. split_and!; [done..|]. left. by eauto.
Qed.

Lemma fetchChange_follows (params : AzureDevOpsParams) (pat : string)
    (commitId : option string) (change : JsVal) (f : FileDiff) :
  fetchChange requestItem params pat commitId change = Normal (Some f) →
  fetchedFile requestItem params pat commitId change f.
Proof.
  unfold fetchChange, fetchedFile.
  destruct (changePath change) as [path|e]; cbn; [|done].
  destruct (truthy path) eqn:Hpath; cbn; [|done].
  destruct (get change "changeType") as [rawType|e]; cbn; [|done].
  destruct (lowerCased _) as [lowered|e] eqn:Hlowered; cbn; [|done].
  destruct (if negb _ then _ else _) as [c|e] eqn:Hcontent; cbn; [|done].
  destruct (get change "sourceServerItem"); cbn; [|done].
  destruct (get change "originalPath"); cbn; [|done].
  intros [= <-]. cbn. split_and!; [done..|by eauto|].
  case_bool_decide as Hskip; cbn in Hcontent.
  - injection Hcontent as <-. left. split; [done|]. left.
    exists lowered. by split.
  - apply (fetchContent_follows params pat path commitId
             {| Types.path := path;
                Types.changeType := orElse rawType (JStr "edit");
                Types.content := c;
                Types.originalPath := _ |}); [|done].
    intros (lowered' & Hlowered' & Hin). cbn in Hlowered'. congruence.
Qed.

Lemma fetchBatchContents_follows (params : AzureDevOpsParams) (pat : string)
    (changes : list JsVal) (commitId : option string) (files : list FileDiff) :
  fetchBatchContents requestItem params pat changes commitId = Normal files →
  Forall2 (fetchedFile requestItem params pat commitId)
    (filter (λ change, hasPath change = true) changes) files.
Proof.
  unfold fetchBatchContents.
  destruct (mapAll _ changes) as [res|e] eqn:Hres; cbn; [|done].
  intros [= <-]. apply mapAll_Normal in Hres. unfold nonNull.
  induction Hres as [|change r changes res Hr _ IH]; [constructor|].
  destruct r as [f|].
  - pose proof (fetchChange_ok _ _ _ _ _ Hr) as (_ & _ & Hp).
    apply fetchChange_follows in Hr.
    rewrite filter_cons_True by done. cbn. by constructor.
  - apply fetchChange_None in Hr.
    rewrite filter_cons_False by congruence. done.
Qed.

(** C8: [fetchBatchContents] returns one file for each change with a path,
    in order, and the content of each follows the request made for its
    path: it is the empty string when the change type is "delete" or "none"
    or the response is not ok, the binary marker when the fetched text
    contains a NUL, the error marker when the request or the reading of its
    text throws, and otherwise the fetched text itself, kept whole when it
    has at most 20000 code units and cut to its first 20000 followed by the
    suffix when it has more; so no returned content contains a NUL, and
    none is longer than 20000 plus the 16 code units of the suffix. *)
Theorem C8_batch_contents_are_bounded (params : AzureDevOpsParams)
    (pat : string) (changes : list JsVal) (commitId : option string)
    (files : list FileDiff) :
  fetchBatchContents requestItem params pat changes commitId = Normal files →
  Forall2 (fetchedFile requestItem params pat commitId)
    (filter (λ change, hasPath change = true) changes) files ∧
  Forall (λ f, admissibleContent (content f) ∧
               includesChar NUL (content f) = false ∧
               (Z.of_nat (String.length (content f)) ≤ 20000 + 16)%Z) files.
Proof.
  intros Hrun. split; [by apply fetchBatchContents_follows|].
  apply fetchBatchContents_ok in Hrun as [Hfiles _].
  eapply Forall_impl; [exact Hfiles|]. intros f Hf. split_and!.
  - done.
  - by apply admissibleContent_no_NUL.
  - pose proof (admissibleContent_length _ Hf) as Hlen.
    pose proof MAX_CONTENT_value. simpl in Hlen. lia.
Qed.

End Fetch.

Example sample_contents :
  ∃ files,
    fetchBatchContents Samples.sampleRequest Samples.sampleParams "pat" Samples.sampleChanges None
    = Normal files ∧
    content <$> files = ["export {}"; BINARY_MARKER; ""; ERROR_MARKER; ""].
Proof. eexists. split; vm_compute; reflexivity. Qed.

Lemma C8_witness :
  ∃ files,
    fetchBatchContents Samples.sampleRequest Samples.sampleParams "pat" Samples.sampleChanges None
    = Normal files ∧
    content <$> files = ["export {}"; BINARY_MARKER; ""; ERROR_MARKER; ""] ∧
    Forall2 (fetchedFile Samples.sampleRequest Samples.sampleParams "pat" None)
      (filter (λ change, hasPath change = true) Samples.sampleChanges) files ∧
    Forall (λ f, admissibleContent (content f) ∧
                 includesChar NUL (content f) = false ∧
                 (Z.of_nat (String.length (content f)) ≤ 20000 + 16)%Z) files.
Proof.
  eexists. split; [vm_compute; reflexivity|]. split; [vm_compute; reflexivity|].
  apply (C8_batch_contents_are_bounded Samples.sampleRequest Samples.sampleParams "pat"
           Samples.sampleChanges None).
  vm_compute. reflexivity.
Defined.

End FetchProofs.

Module AppProofs.
Import Js Url Types App.

Lemma ceilDiv_10 (n : nat) :
  n ≤ 10 * ceilDiv n 10 ∧ 10 * ceilDiv n 10 < n + 10.
Proof.
  unfold ceilDiv. change (10 - 1) with 9.
  pose proof (Nat.div_mod_eq (n + 9) 10) as Hdiv.
  pose proof (Nat.mod_upper_bound (n + 9) 10 ltac:(lia)) as Hmod.
  lia.
Qed.

Lemma andThen_await {A B} (a : A) (k : A → Async B) :
  await (Normal a) ≫= k = k a.
Proof.
  unfold mbind, Async_bind, andThen, await. simpl. by destruct (k a).
Qed.

Lemma andThen_ret {A B} (a : A) (k : A → Async B) : ret a ≫= k = k a.
Proof. apply andThen_await. Qed.

Lemma tryCatch_Normal {A} (body : Async A) (handler : Error → Async A) (a : A) :
  outcome body = Normal a → tryCatch body handler = body.
Proof. unfold tryCatch. by intros ->. Qed.

Section Component.
Variable newURL : string → completion URL.
Variable getPRDetails : AzureDevOpsParams → string → completion PRInfo.
Variable getPRMetadata :
  AzureDevOpsParams → string → completion (option string * list JsVal).
Variable requestItem :
  AzureDevOpsParams → string → JsVal → option string
  → completion AzureDevOpsService.Response.
Variable geminiAnalyzeBatch glmAnalyzeBatch :
  PRInfo → list FileDiff → nat → nat → string → string → completion PRAnalysis.
Variables (url pat : string) (aiProvider : AIProvider)
          (systemInstructions systemContext : string).

Abbreviation startAnalysis :=
  (startAnalysis newURL getPRDetails getPRMetadata requestItem
     geminiAnalyzeBatch glmAnalyzeBatch url pat aiProvider
     systemInstructions systemContext).
Abbreviation loadNextBatch :=
  (loadNextBatch requestItem geminiAnalyzeBatch glmAnalyzeBatch pat aiProvider
     systemInstructions systemContext).
Abbreviation analyzeFunction :=
  (analyzeFunction geminiAnalyzeBatch glmAnalyzeBatch aiProvider
     systemInstructions systemContext).
Abbreviation fetchBatchContents :=
  (AzureDevOpsService.fetchBatchContents requestItem).

Lemma analyzeFunction_Normal (info : PRInfo) (files : list FileDiff)
    (index total : nat) (result : PRAnalysis) (k : PRAnalysis → AppState) :
  outcome (analyzeFunction info files index total) = Normal result →
  analyzeFunction info files index total ≫= (λ a, ret (k a))
  = {| trace := trace (analyzeFunction info files index total);
       outcome := Normal (k result) |}.
Proof.
  intros H. unfold mbind, Async_bind, andThen. by rewrite H.
Qed.

Lemma startAnalysis_success (state : AppState) (params : AzureDevOpsParams)
    (info : PRInfo) (commitId : option string) (changes : list JsVal)
    (files : list FileDiff) (result : PRAnalysis) :
  emptyStr url = false → emptyStr pat = false →
  AzureDevOpsService.parsePRUrl newURL url = Normal (Some params) →
  getPRDetails params pat = Normal info →
  toLowerCase (status info) ≠ "abandoned" →
  getPRMetadata params pat = Normal (commitId, changes) →
  changes ≠ [] →
  fetchBatchContents params pat (take 10 changes) commitId = Normal files →
  outcome (analyzeFunction info files 0 (ceilDiv (length changes) 10))
  = Normal result →
  startAnalysis state
  = {| trace := trace (analyzeFunction info files 0
                         (ceilDiv (length changes) 10));
       outcome := Normal
         {| isAnalyzing := false; error := None; prInfo := Some info;
            analysis := Some result; allChanges := changes;
            processedCount := length (take 10 changes);
            Types.commitId := commitId; Types.params := Some params;
            Types.systemInstructions := systemInstructions;
            Types.systemContext := systemContext;
            Types.aiProvider := aiProvider |} |}.
Proof.
  intros Hurl Hpat Hparse Hinfo Hstatus Hmeta Hne Hfiles Hresult.
  unfold App.startAnalysis. rewrite Hurl, Hpat, Hparse. cbn [orb].
  rewrite andThen_await, Hinfo, andThen_await.
  rewrite bool_decide_eq_false_2 by done.
  rewrite Hmeta, andThen_await. cbn [fst snd].
  rewrite bool_decide_eq_false_2 by (by destruct changes).
  rewrite Hfiles, andThen_await.
  rewrite (analyzeFunction_Normal _ _ _ _ result) by done.
  by erewrite tryCatch_Normal.
Qed.

Lemma loadNextBatch_success (state : AppState) (params : AzureDevOpsParams)
    (info : PRInfo) (files : list FileDiff) (result : PRAnalysis) :
  prInfo state = Some info → Types.params state = Some params →
  allChanges state ≠ [] →
  fetchBatchContents params pat
    (take 10 (drop (processedCount state) (allChanges state)))
    (commitId state) = Normal files →
  outcome (analyzeFunction info files (processedCount state / 10)
             (ceilDiv (length (allChanges state)) 10)) = Normal result →
  loadNextBatch state
  = {| trace := trace (analyzeFunction info files (processedCount state / 10)
                         (ceilDiv (length (allChanges state)) 10));
       outcome := Normal
         {| isAnalyzing := false; error := error state;
            prInfo := Some info;
            analysis := Some (merged (analysis state) result);
            allChanges := allChanges state;
            processedCount :=
              processedCount state
              + length (take 10 (drop (processedCount state)
                                   (allChanges state)));
            Types.commitId := commitId state; Types.params := Some params;
            Types.systemInstructions := Types.systemInstructions state;
            Types.systemContext := Types.systemContext state;
            Types.aiProvider := Types.aiProvider state |} |}.
Proof.
  intros Hinfo Hparams Hne Hfiles Hresult.
  unfold App.loadNextBatch. rewrite Hinfo, Hparams.
  rewrite bool_decide_eq_false_2 by (by destruct (allChanges state)).
  cbn zeta. rewrite Hfiles, andThen_await.
  rewrite (analyzeFunction_Normal _ _ _ _ result) by done.
  erewrite tryCatch_Normal by done. cbn. by rewrite Hinfo, Hparams.
Qed.

(** C3, as the code has it: [startAnalysis] fetches the first
    min(10, changes.length) changes and makes one analysis call, with the
    files of those among them that have a path, batch index 0 and
    ceil(changes.length / 10) batches in all, and on success sets
    [processedCount] to min(10, changes.length); a successful
    [loadNextBatch] does the same with the changes from index
    [processedCount] up to [processedCount + 10], at most 10 of them, and
    adds their number to [processedCount]. *)
Theorem C3_batches_follow_the_change_list :
  (∀ (state : AppState) (params : AzureDevOpsParams) (info : PRInfo)
     (commitId : option string) (changes : list JsVal)
     (files : list FileDiff) (result : PRAnalysis),
     emptyStr url = false → emptyStr pat = false →
     AzureDevOpsService.parsePRUrl newURL url = Normal (Some params) →
     getPRDetails params pat = Normal info →
     toLowerCase (status info) ≠ "abandoned" →
     getPRMetadata params pat = Normal (commitId, changes) →
     changes ≠ [] →
     fetchBatchContents params pat (take 10 changes) commitId = Normal files →
     outcome (analyzeFunction info files 0 (ceilDiv (length changes) 10))
     = Normal result →
     ∃ call state',
       startAnalysis state = {| trace := [call]; outcome := Normal state' |} ∧
       length (take 10 changes) = 10 `min` length changes ∧
       callFiles call = files ∧
       Forall2 AzureDevOpsService.fileOf
         (filter (λ change, AzureDevOpsService.hasPath change = true)
            (take 10 changes))
         (callFiles call) ∧
       batchIndex call = 0 ∧
       (length changes ≤ 10 * totalBatches call ∧
        10 * totalBatches call < length changes + 10) ∧
       allChanges state' = changes ∧
       processedCount state' = 10 `min` length changes) ∧
  (∀ (state : AppState) (params : AzureDevOpsParams) (info : PRInfo)
     (files : list FileDiff) (result : PRAnalysis),
     let nextBatch :=
       take 10 (drop (processedCount state) (allChanges state)) in
     prInfo state = Some info → Types.params state = Some params →
     allChanges state ≠ [] →
     fetchBatchContents params pat nextBatch (commitId state) = Normal files →
     outcome (analyzeFunction info files (processedCount state / 10)
                (ceilDiv (length (allChanges state)) 10)) = Normal result →
     ∃ call state',
       loadNextBatch state = {| trace := [call]; outcome := Normal state' |} ∧
       (∀ k : nat,
          nextBatch !! k
          = if decide (k < 10)
            then allChanges state !! (processedCount state + k) else None) ∧
       length nextBatch ≤ 10 ∧
       callFiles call = files ∧
       Forall2 AzureDevOpsService.fileOf
         (filter (λ change, AzureDevOpsService.hasPath change = true)
            nextBatch)
         (callFiles call) ∧
       allChanges state' = allChanges state ∧
       processedCount state' = processedCount state + length nextBatch).
Proof.
  split.
  - intros state params info commitId changes files result
      Hurl Hpat Hparse Hinfo Hstatus Hmeta Hne Hfiles Hresult.
    rewrite (startAnalysis_success state params info commitId changes files
               result) by done.
    eexists _, _. split; [reflexivity|].
    apply FetchProofs.fetchBatchContents_ok in Hfiles as [_ Hof].
    split_and!; try done.
    + apply length_take.
    + apply ceilDiv_10.
    + apply ceilDiv_10.
    + apply length_take.
  - intros state params info files result nextBatch
      Hinfo Hparams Hne Hfiles Hresult.
    rewrite (loadNextBatch_success state params info files result) by done.
    eexists _, _. split; [reflexivity|].
    apply FetchProofs.fetchBatchContents_ok in Hfiles as [_ Hof].
    split_and!; try done.
    + intros k. unfold nextBatch. case_decide.
      * by rewrite lookup_take_lt, lookup_drop.
      * by rewrite lookup_take_ge by lia.
    + unfold nextBatch. rewrite length_take. lia.
Qed.

(** C4: after a successful [loadNextBatch] the analysis in the state has, as
    [keyPoints], [securityConcerns], [performanceTips] and
    [codeReviewComments], the previous analysis's lists followed by the new
    batch's lists, and takes [summary], [overallHealth],
    [architecturalImpact], [contextAlignment] and [stats] from the new
    batch's analysis alone. *)
Theorem C4_merge_appends_lists_and_replaces_the_rest
    (state : AppState) (params : AzureDevOpsParams) (info : PRInfo)
    (files : list FileDiff) (previous batchAnalysis : PRAnalysis) :
  prInfo state = Some info → Types.params state = Some params →
  allChanges state ≠ [] →
  analysis state = Some previous →
  fetchBatchContents params pat
    (take 10 (drop (processedCount state) (allChanges state)))
    (commitId state) = Normal files →
  outcome (analyzeFunction info files (processedCount state / 10)
             (ceilDiv (length (allChanges state)) 10))
  = Normal batchAnalysis →
  ∃ state' merged,
    outcome (loadNextBatch state) = Normal state' ∧
    analysis state' = Some merged ∧
    keyPoints merged = keyPoints previous ++ keyPoints batchAnalysis ∧
    securityConcerns merged
    = securityConcerns previous ++ securityConcerns batchAnalysis ∧
    performanceTips merged
    = performanceTips previous ++ performanceTips batchAnalysis ∧
    codeReviewComments merged
    = codeReviewComments previous ++ codeReviewComments batchAnalysis ∧
    summary merged = summary batchAnalysis ∧
    overallHealth merged = overallHealth batchAnalysis ∧
    architecturalImpact merged = architecturalImpact batchAnalysis ∧
    contextAlignment merged = contextAlignment batchAnalysis ∧
    stats merged = stats batchAnalysis.
Proof.
  intros Hinfo Hparams Hne Hprev Hfiles Hresult.
  rewrite (loadNextBatch_success state params info files batchAnalysis)
    by done.
  eexists _, _. split; [reflexivity|]. split; [reflexivity|].
  rewrite Hprev. by split_and!.
Qed.

(** Without a previous analysis the lists of the new batch stand alone. *)
Lemma merged_first (batchAnalysis : PRAnalysis) :
  keyPoints (merged None batchAnalysis) = keyPoints batchAnalysis ∧
  securityConcerns (merged None batchAnalysis)
  = securityConcerns batchAnalysis ∧
  performanceTips (merged None batchAnalysis)
  = performanceTips batchAnalysis ∧
  codeReviewComments (merged None batchAnalysis)
  = codeReviewComments batchAnalysis.
Proof. by split_and!. Qed.

End Component.

Example first_batch_run :
  length <$> (callFiles <$> trace (Samples.sampleStart Samples.initialState)) = [9] ∧
  processedCount Samples.afterFirstBatch = 10 ∧
  totalBatches <$> trace (Samples.sampleStart Samples.initialState) = [2].
Proof. vm_compute. done. Qed.

Example second_batch_run :
  length <$> (callFiles <$> trace (Samples.sampleNext Samples.afterFirstBatch)) = [2] ∧
  batchIndex <$> trace (Samples.sampleNext Samples.afterFirstBatch) = [1] ∧
  (processedCount <$> match outcome (Samples.sampleNext Samples.afterFirstBatch) with
                      | Normal state => Some state
                      | Throw _ => None
                      end) = Some 12.
Proof. vm_compute. done. Qed.

(** C3 as it was stated fails: for a change list of one change without a
    path, the first analysis call succeeds and is sent no file at all, not
    the min(10, 1) = 1 file of the claim, while [processedCount] becomes 1. *)
Lemma C3_counterexample :
  let run :=
    startAnalysis httpsURL (λ _ _, Normal Samples.sampleInfo)
      (λ _ _, Normal (None, [JObj [("changeType", JStr "edit")]]))
      Samples.sampleRequest Samples.sampleAnalyze Samples.sampleAnalyze
      Samples.sampleUrl "pat" gemini "" "" Samples.initialState in
  ∃ call state',
    run = {| trace := [call]; outcome := Normal state' |} ∧
    error state' = None ∧
    10 `min` length (allChanges state') = 1 ∧
    processedCount state' = 1 ∧
    length (callFiles call) = 0 ∧
    ¬ Forall2 AzureDevOpsService.fileOf
        (take 10 (allChanges state')) (callFiles call).
Proof.
  eexists _, _. split; [vm_compute; reflexivity|].
  split_and!; try (vm_compute; reflexivity).
  intros H. apply Forall2_length in H. vm_compute in H. discriminate.
Qed.

Lemma C3_witness :
  (∃ call state',
     Samples.sampleStart Samples.initialState
     = {| trace := [call]; outcome := Normal state' |} ∧
     batchIndex call = 0 ∧ totalBatches call = 2 ∧
     length (callFiles call) = 9 ∧ processedCount state' = 10) ∧
  (∃ call state',
     Samples.sampleNext Samples.afterFirstBatch
     = {| trace := [call]; outcome := Normal state' |} ∧
     length (callFiles call) = 2 ∧ processedCount state' = 12).
Proof.
  pose proof (C3_batches_follow_the_change_list httpsURL
                (λ _ _, Normal Samples.sampleInfo)
                (λ _ _, Normal (Some "c0ffee", Samples.twelveChanges))
                Samples.sampleRequest Samples.sampleAnalyze
                Samples.sampleAnalyze Samples.sampleUrl "pat" gemini "" "")
    as [Hfirst Hnext].
  split.
  - destruct (Hfirst Samples.initialState Samples.sampleParams
                Samples.sampleInfo (Some "c0ffee") Samples.twelveChanges
                (match AzureDevOpsService.fetchBatchContents
                         Samples.sampleRequest Samples.sampleParams "pat"
                         (take 10 Samples.twelveChanges) (Some "c0ffee") with
                 | Normal files => files
                 | Throw _ => []
                 end)
                (Samples.sampleAnalysis "batch 0")
                ltac:(reflexivity) ltac:(reflexivity) ltac:(reflexivity)
                ltac:(reflexivity) ltac:(vm_compute; discriminate)
                ltac:(reflexivity) ltac:(discriminate)
                ltac:(vm_compute; reflexivity) ltac:(reflexivity))
      as (call & state' & Hrun & _ & Hfiles & _ & Hindex & Htotal & _ & Hcount).
    exists call, state'. split; [exact Hrun|].
    split; [exact Hindex|]. split_and!.
    + change (length Samples.twelveChanges) with 12 in Htotal. lia.
    + rewrite Hfiles. vm_compute. reflexivity.
    + exact Hcount.
  - destruct (Hnext Samples.afterFirstBatch Samples.sampleParams
                Samples.sampleInfo
                (match AzureDevOpsService.fetchBatchContents
                         Samples.sampleRequest Samples.sampleParams "pat"
                         (take 10 (drop 10 Samples.twelveChanges))
                         (Some "c0ffee") with
                 | Normal files => files
                 | Throw _ => []
                 end)
                (Samples.sampleAnalysis "a later batch")
                ltac:(vm_compute; reflexivity) ltac:(vm_compute; reflexivity)
                ltac:(vm_compute; discriminate) ltac:(vm_compute; reflexivity)
                ltac:(vm_compute; reflexivity))
      as (call & state' & Hrun & _ & _ & Hfiles & _ & _ & Hcount).
    exists call, state'. split; [exact Hrun|]. split.
    + rewrite Hfiles. vm_compute. reflexivity.
    + rewrite Hcount. vm_compute. reflexivity.
Defined.

Lemma C4_witness :
  ∃ state' merged,
    outcome (Samples.sampleNext Samples.afterFirstBatch) = Normal state' ∧
    analysis state' = Some merged ∧
    keyPoints merged = ["Point of batch 0"; "Point of a later batch"] ∧
    summary merged = "Summary of a later batch".
Proof.
  destruct (C4_merge_appends_lists_and_replaces_the_rest
              Samples.sampleRequest Samples.sampleAnalyze Samples.sampleAnalyze
              "pat" gemini "" ""
              Samples.afterFirstBatch Samples.sampleParams Samples.sampleInfo
              (match AzureDevOpsService.fetchBatchContents
                       Samples.sampleRequest Samples.sampleParams
                       "pat" (take 10 (drop 10 Samples.twelveChanges))
                       (Some "c0ffee") with
               | Normal files => files
               | Throw _ => []
               end)
              (Samples.sampleAnalysis "batch 0") (Samples.sampleAnalysis "a later batch")
              ltac:(vm_compute; reflexivity) ltac:(vm_compute; reflexivity)
              ltac:(vm_compute; discriminate) ltac:(vm_compute; reflexivity)
              ltac:(vm_compute; reflexivity) ltac:(vm_compute; reflexivity))
    as (state' & merged & Hrun & Han & Hkey & _ & _ & _ & Hsum & _).
  exists state', merged. split; [exact Hrun|]. split; [exact Han|].
  split; [rewrite Hkey; reflexivity | rewrite Hsum; reflexivity].
Defined.

End AppProofs.

Module GlmProofs.
Import Js Types GlmService.



Section Analyze.
Variable apiKey : JsVal.
Variable create :
  PRInfo → list FileDiff → string → string → completion JsVal.
Variable JSON_parse : JsVal → completion JsVal.
Variable normalize : JsVal → completion PRAnalysis.

(** The parsing block throws only its own error. *)
Lemma parseContent_throws (content : JsVal) (error : Error) :
  parseContent JSON_parse content = Throw error →
  message error = "Failed to parse GLM response as JSON" ∧
  ∃ first, JSON_parse content = Throw first.
Proof.
  unfold parseContent.
  destruct (JSON_parse content) as [parsed|first]; cbn; [done|].
  destruct (contentMatch content) as [[found|]|e]; cbn.
  - destruct (JSON_parse (JStr found)); cbn; [done|].
    intros [= <-]. eauto.
  - intros [= <-]. eauto.
  - intros [= <-]. eauto.
Qed.


(** With an API key set the promise of [analyzeBatch] never rejects. *)
Lemma analyzeBatch_resolves (prInfo : PRInfo) (changes : list FileDiff)
    (batchIndex totalBatches : nat) (customInstructions systemContext : string) :
  truthy apiKey = true →
  ∃ result,
    analyzeBatch apiKey create JSON_parse normalize prInfo changes
      batchIndex totalBatches customInstructions systemContext
    = Normal result.
Proof.
  intros Hkey. unfold analyzeBatch. rewrite Hkey. cbn [negb].
  destruct (_ ≫= _) as [result|error]; cbn; eauto.
Qed.

End Analyze.

Example parse_failure_fallback :
  match analyzeBatch (JStr "key") Samples.proseCall Samples.strictParse Samples.noNormalize
          Samples.sampleInfo [] 0 1 "" "" with
  | Normal result =>
      comment <$> codeReviewComments result
      = ["Analysis failed: Failed to parse GLM response as JSON"]
  | Throw _ => False
  end.
Proof. vm_compute. reflexivity. Qed.


End GlmProofs.

Module ReviewProofs.
Import Js PrReviewService.

Lemma get_Normal (v : JsVal) (key : string) (x : JsVal) :
  get v key = Normal x → x = optGet v key.
Proof. destruct v; cbn; congruence. Qed.

Lemma orElse_defaulted (v fallback : JsVal) :
  defaulted v fallback (orElse v fallback).
Proof. unfold defaulted, orElse. destruct (truthy v); auto. Qed.

Lemma orElse_assoc (a b c : JsVal) :
  orElse (orElse a b) c = orElse a (orElse b c).
Proof.
  unfold orElse. destruct (truthy a) eqn:Ha; [by rewrite Ha|done].
Qed.

Lemma optMap_copied {B} (f : JsVal → completion B) (v : JsVal)
    (r : option (list B)) :
  optMap v f = Normal r →
  copiedList (λ x y, f x = Normal y) v (default [] r).
Proof.
  destruct v; cbn; try done; try by intros [= <-].
  destruct (mapAll f items) as [ys|e] eqn:Hys; cbn; [|done].
  intros [= <-]. by apply FetchProofs.mapAll_Normal.
Qed.

Lemma copiedList_impl {A} (P Q : JsVal → A → Prop) (v : JsVal) (out : list A) :
  (∀ x y, P x y → Q x y) → copiedList P v out → copiedList Q v out.
Proof.
  intros HPQ. destruct v; cbn; try done.
  intros H. by eapply Forall2_impl.
Qed.

Ltac read_field H :=
  match type of H with
  | context [get ?v ?k] =>
      let x := fresh "x" in
      let Hx := fresh "Hx" in
      destruct (get v k) as [x|] eqn:Hx; cbn in H; [|done];
      apply get_Normal in Hx; subst x
  end.

Lemma reviewerOf_copied (r : JsVal) (out : PRReviewer) :
  reviewerOf r = Normal out → reviewerCopied r out.
Proof.
  unfold reviewerOf. intros H. repeat read_field H.
  injection H as <-. by repeat split.
Qed.

Lemma commentOf_copied (c : JsVal) (out : PRReviewComment) :
  commentOf c = Normal out → commentCopied c out.
Proof.
  unfold commentOf. intros H. repeat read_field H.
  injection H as <-. by repeat split.
Qed.

Lemma threadOf_copied (t : JsVal) (out : PRReviewThread) :
  threadOf t = Normal out → threadCopied t out.
Proof.
  unfold threadOf. intros H. do 3 read_field H.
  destruct (optMap _ commentOf) as [mapped|] eqn:Hmap; cbn in H; [|done].
  repeat read_field H. injection H as <-.
  apply optMap_copied in Hmap.
  repeat split. by eapply copiedList_impl; [apply commentOf_copied|].
Qed.

Section Review.
Variable fetchWithAuth : PRReviewParams → string → completion JsVal.

(** C7, as the code has it: the returned details hold the fields of the
    response with falsy-field defaulting.  [description] falls back to "",
    [createdBy.displayName] to "Unknown", [createdBy.uniqueName] to
    [createdBy.email] and, when that is falsy too, to "unknown@example.com",
    [mergeStatus] to "unknown", the names of the repository and the project
    to those of the request and their URLs to ""; [reviewers], [threads] and
    the comments of a thread are empty when absent and are copied entry by
    entry otherwise; every other field is the response's field unchanged. *)
Theorem C7_details_default_the_optional_fields (params : PRReviewParams)
    (pat : string) (data : JsVal) (details : PRReviewDetails) :
  fetchWithAuth params pat = Normal data →
  getPRReviewDetails fetchWithAuth params pat = Normal details →
  let author := optGet data "createdBy" in
  let repo := optGet data "repository" in
  defaulted (optGet data "description") (JStr "") (description details) ∧
  defaulted (optGet author "displayName") (JStr "Unknown")
    (displayName (createdBy details)) ∧
  (∃ fallback,
     defaulted (optGet author "email") (JStr "unknown@example.com") fallback ∧
     defaulted (optGet author "uniqueName") fallback
       (uniqueName (createdBy details))) ∧
  defaulted (optGet data "mergeStatus") (JStr "unknown")
    (mergeStatus details) ∧
  copiedList reviewerCopied (optGet data "reviewers") (reviewers details) ∧
  copiedList threadCopied (optGet data "threads") (threads details) ∧
  (details_pullRequestId details = optGet data "pullRequestId" ∧
   title details = optGet data "title" ∧
   creationDate details = optGet data "creationDate" ∧
   sourceRefName details = optGet data "sourceRefName" ∧
   targetRefName details = optGet data "targetRefName" ∧
   status details = optGet data "status" ∧
   url details = optGet data "url") ∧
  defaulted (optGet repo "name") (JStr (repository params))
    (name (details_repository details)) ∧
  defaulted (optGet repo "url") (JStr "")
    (link_url (details_repository details)) ∧
  defaulted (optGet (optGet repo "project") "name") (JStr (project params))
    (name (details_project details)) ∧
  defaulted (optGet (optGet repo "project") "url") (JStr "")
    (link_url (details_project details)).
Proof.
  intros Hdata H. unfold getPRReviewDetails in H. rewrite Hdata in H.
  cbn in H. unfold detailsOf in H. do 10 read_field H.
  destruct (optMap _ reviewerOf) as [mappedReviewers|] eqn:Hrev;
    cbn in H; [|done].
  read_field H.
  destruct (optMap _ threadOf) as [mappedThreads|] eqn:Hthr;
    cbn in H; [|done].
  repeat read_field H. injection H as <-.
  apply optMap_copied in Hrev, Hthr. cbn.
  split_and!; try done; try apply orElse_defaulted.
  - eexists. split; [apply orElse_defaulted|].
    rewrite orElse_assoc. apply orElse_defaulted.
  - by eapply copiedList_impl; [apply reviewerOf_copied|].
  - by eapply copiedList_impl; [apply threadOf_copied|].
Qed.

End Review.

(** C7 as it was stated fails: the response has no [createdBy.uniqueName],
    and the returned [uniqueName] is the author's e-mail address, not
    "unknown@example.com". *)
Lemma C7_counterexample :
  ∃ details,
    getPRReviewDetails (λ _ _, Normal Samples.authorByEmail) Samples.sampleReviewParams "pat"
    = Normal details ∧
    optGet (optGet Samples.authorByEmail "createdBy") "uniqueName" = JUndefined ∧
    uniqueName (createdBy details) = JStr "dev@contoso.com" ∧
    uniqueName (createdBy details) ≠ JStr "unknown@example.com".
Proof. eexists. split; [vm_compute; reflexivity|]. by split_and!. Qed.

Lemma C7_witness :
  ∃ details,
    getPRReviewDetails (λ _ _, Normal Samples.authorByEmail) Samples.sampleReviewParams "pat"
    = Normal details ∧
    description details = JStr "" ∧
    displayName (createdBy details) = JStr "Unknown" ∧
    mergeStatus details = JStr "unknown" ∧
    threads details = [] ∧
    title details = JStr "Add cart".
Proof.
  eexists. split; [vm_compute; reflexivity|].
  destruct (C7_details_default_the_optional_fields
              (λ _ _, Normal Samples.authorByEmail) Samples.sampleReviewParams "pat"
              Samples.authorByEmail _ eq_refl ltac:(vm_compute; reflexivity))
    as (Hdesc & Hname & _ & Hmerge & _ & Hthreads & (_ & Htitle & _) & _).
  split_and!.
  - by destruct Hdesc as [[? ->] | [_ ->]].
  - by destruct Hname as [[? ->] | [_ ->]].
  - by destruct Hmerge as [[? ->] | [_ ->]].
  - exact Hthreads.
  - exact Htitle.
Defined.

End ReviewProofs.
